(** * Intraday open-breakout backtest: a shallow embedding and its properties

    The development follows [btc_backtest_intraday_open_breakout2_2tradeperday.py].
    A price table is a list of candles in row order, timestamps are whole
    seconds since the epoch, and prices are exact rationals: the arithmetic of
    the script ([*], [+], [-], comparisons) is carried out in [Q], so rounding
    of binary floating point is not part of the model. *)

From Stdlib Require Import List ZArith QArith Bool Lia.
From Stdlib Require Import Sorting.Sorted Sorting.Permutation.
Import ListNotations.

Open Scope Z_scope.

(** ** Data model *)

(** One price bar: the [time] column and the four price columns. *)
Record Candle : Type := mkCandle {
  time : Z;
  open : Q;
  high : Q;
  low : Q;
  close : Q
}.

Inductive TradeType : Type := LONG | SHORT.

(** One row of the trade table; the fields are the keys of the dictionaries
    appended to [trades].  [Date] is the calendar day as a day number (the
    script stores the timestamp of its midnight, which orders the same way);
    the column [Type] is named [Type_] here. *)
Record Trade : Type := mkTrade {
  Date : Z;
  Type_ : TradeType;
  Entry : Q;
  Exit : Q;
  PnL : Q;
  StopHit : bool;
  EntryTime : Z;
  ExitTime : Z
}.

Record Metrics : Type := mkMetrics {
  Total_PnL : Q;
  Max_Drawdown : Q;
  Total_Trades : Z;
  Win_Rate_pct : Q;
  Avg_PnL : Q
}.

(** ** Timestamps: calendar date and time of day *)

Definition day_seconds : Z := 86400.

(** [df.index.date]: the calendar day of a timestamp, as a day number. *)
Definition date_of (ts : Z) : Z := ts / day_seconds.

(** Seconds since midnight, the quantity [between_time] compares. *)
Definition time_of_day (ts : Z) : Z := ts mod day_seconds.

Definition trade_date (c : Candle) : Z := date_of (time c).

(** ** Table operations used by the script *)

Section Sorting.
Context {A : Type} (leb : A -> A -> bool).

Fixpoint insert_sorted (x : A) (l : list A) : list A :=
  match l with
  | [] => [x]
  | y :: r => if leb x y then x :: l else y :: insert_sorted x r
  end.

(** Stable sort: an element is placed before the first one it does not
    exceed, so rows with equal keys keep their relative order. *)
Fixpoint stable_sort (l : list A) : list A :=
  match l with
  | [] => []
  | x :: r => insert_sorted x (stable_sort r)
  end.
End Sorting.

Fixpoint dropwhile {A : Type} (p : A -> bool) (l : list A) : list A :=
  match l with
  | [] => []
  | x :: r => if p x then dropwhile p r else l
  end.

(** [df.set_index("time").sort_index()].  Rows with equal times keep their
    table order here; a table whose times are distinct has one sorted order
    only. *)
Definition sort_index (df : list Candle) : list Candle :=
  stable_sort (fun a b => time a <=? time b) df.

(** The group keys of [df.groupby("trade_date")]: the distinct dates in
    ascending order. *)
Definition group_keys (df : list Candle) : list Z :=
  stable_sort Z.leb (nodup Z.eq_dec (map trade_date df)).

(** [df.groupby("trade_date")]: one pair per key, rows in table order. *)
Definition groupby_trade_date (df : list Candle) : list (Z * list Candle) :=
  map (fun day => (day, filter (fun c => trade_date c =? day) df))
      (group_keys df).

(** The row mask of [between_time(start_time, end_time)], both ends included;
    a window with [start_time > end_time] wraps around midnight. *)
Definition in_window (start_time end_time t : Z) : bool :=
  if start_time <=? end_time
  then (start_time <=? t) && (t <=? end_time)
  else (start_time <=? t) || (t <=? end_time).

Definition between_time (start_time end_time : Z) (rows : list Candle)
  : list Candle :=
  filter (fun c => in_window start_time end_time (time_of_day (time c))) rows.

(** [day_data.loc[ts:]] on a table whose index is sorted: the rows from the
    first one whose time is not below [ts]. *)
Definition loc_from (ts : Z) (rows : list Candle) : list Candle :=
  dropwhile (fun c => time c <? ts) rows.

(** [.iloc[1:]]. *)
Definition iloc_from1 (rows : list Candle) : list Candle := tl rows.

(** ** The breakout simulator *)

Open Scope Q_scope.

(** The loop "find first trigger": entry price, trigger time, direction and
    stop level of the first candle that touches a trigger, LONG tested first. *)
Fixpoint find_trigger (long_trigger short_trigger sl_pct : Q)
    (rows : list Candle) : option (Q * Z * TradeType * Q) :=
  match rows with
  | [] => None
  | row :: rest =>
      if Qle_bool long_trigger (high row) then
        Some (long_trigger, time row, LONG, long_trigger * (1 - sl_pct))
      else if Qle_bool (low row) short_trigger then
        Some (short_trigger, time row, SHORT, short_trigger * (1 + sl_pct))
      else find_trigger long_trigger short_trigger sl_pct rest
  end.

(** The loop "check stoploss": exit price and time of the first candle of
    [after] that touches the stop, if any. *)
Fixpoint find_stop (trade_type : TradeType) (sl : Q) (after : list Candle)
  : option (Q * Z) :=
  match after with
  | [] => None
  | row :: rest =>
      match trade_type with
      | LONG => if Qle_bool (low row) sl then Some (sl, time row)
                else find_stop trade_type sl rest
      | SHORT => if Qle_bool sl (high row) then Some (sl, time row)
                 else find_stop trade_type sl rest
      end
  end.

(** Exit of a position entered at [trigger_ts]: the stop if it is touched on
    a later row, otherwise the close and time of the last row of the day.
    [first] stands for [day_data.iloc[0]] and is only the default of [last]. *)
Definition manage_exit (trade_type : TradeType) (sl : Q) (trigger_ts : Z)
    (first : Candle) (day_data : list Candle) : Q * Z * bool :=
  let after := iloc_from1 (loc_from trigger_ts day_data) in
  match find_stop trade_type sl after with
  | Some (exit_price, exit_ts) => (exit_price, exit_ts, true)
  | None => (close (last day_data first), time (last day_data first), false)
  end.

Definition pnl_of (trade_type : TradeType) (entry exit_price : Q) : Q :=
  match trade_type with
  | LONG => exit_price - entry
  | SHORT => entry - exit_price
  end.

Definition opposite (trade_type : TradeType) : TradeType :=
  match trade_type with LONG => SHORT | SHORT => LONG end.

(** Body of the per-day loop of [backtest_intraday_open_breakout]: the trades
    appended for one day. *)
Definition day_trades (pct sl_pct : Q) (day : Z) (day_data : list Candle)
  : list Trade :=
  match day_data with
  | [] => []
  | first :: _ =>
      let day_open := open first in
      let long_trigger := day_open * (1 + pct) in
      let short_trigger := day_open * (1 - pct) in
      match find_trigger long_trigger short_trigger sl_pct day_data with
      | None => []
      | Some (entry, trigger_ts, trade_type, sl) =>
          let '(exit_price, exit_ts, stop_hit) :=
            manage_exit trade_type sl trigger_ts first day_data in
          let pnl := pnl_of trade_type entry exit_price in
          [mkTrade day trade_type entry exit_price pnl stop_hit
                   trigger_ts exit_ts]
      end
  end.

(** Body of the per-day loop of [backtest_intraday_open_breakout2]: the first
    trade, then the reversal when the stop was hit and [trade_count < 2]. *)
Definition day_trades2 (pct sl_pct : Q) (day : Z) (day_data : list Candle)
  : list Trade :=
  match day_data with
  | [] => []
  | first :: _ =>
      let day_open := open first in
      let long_trigger := day_open * (1 + pct) in
      let short_trigger := day_open * (1 - pct) in
      let trade_count := 0%nat in
      match find_trigger long_trigger short_trigger sl_pct day_data with
      | None => []
      | Some (entry, trigger_ts, trade_type, sl) =>
          let '(exit_price, exit_ts, stop_hit) :=
            manage_exit trade_type sl trigger_ts first day_data in
          let pnl := pnl_of trade_type entry exit_price in
          let trade1 := mkTrade day trade_type entry exit_price pnl stop_hit
                                trigger_ts exit_ts in
          let trade_count := S trade_count in
          if stop_hit && (trade_count <? 2)%nat then
            let opposite_type := opposite trade_type in
            let opp_entry := exit_price in
            let opp_trigger_ts := exit_ts in
            let opp_sl := match opposite_type with
                          | LONG => opp_entry * (1 - sl_pct)
                          | SHORT => opp_entry * (1 + sl_pct)
                          end in
            let '(opp_exit_price, opp_exit_ts, opp_stop_hit) :=
              manage_exit opposite_type opp_sl opp_trigger_ts first day_data in
            let pnl2 := pnl_of opposite_type opp_entry opp_exit_price in
            [trade1;
             mkTrade day opposite_type opp_entry opp_exit_price pnl2
                     opp_stop_hit opp_trigger_ts opp_exit_ts]
          else [trade1]
      end
  end.

(** ** The ledger aggregator *)

Definition Qminb (a b : Q) : Q := if Qle_bool a b then a else b.
Definition Qmaxb (a b : Q) : Q := if Qle_bool a b then b else a.

Definition sumQ (l : list Q) : Q := fold_left Qplus l 0.

(** Running fold: [scan f a [x1; x2; ...] = [f a x1; f (f a x1) x2; ...]]. *)
Fixpoint scan (f : Q -> Q -> Q) (acc : Q) (l : list Q) : list Q :=
  match l with
  | [] => []
  | x :: r => f acc x :: scan f (f acc x) r
  end.

Definition cumsum (l : list Q) : list Q :=
  match l with [] => [] | x :: r => x :: scan Qplus x r end.

Definition cummax (l : list Q) : list Q :=
  match l with [] => [] | x :: r => x :: scan Qmaxb x r end.

Definition list_min (l : list Q) : Q :=
  match l with [] => 0 | x :: r => fold_left Qminb r x end.

Definition sub_lists (l1 l2 : list Q) : list Q :=
  map (fun p => fst p - snd p) (combine l1 l2).

Definition count_wins (pnls : list Q) : nat :=
  length (filter (fun p => negb (Qle_bool p 0)) pnls).

Definition zero_metrics : Metrics := mkMetrics 0 0 0%Z 0 0.

(** The block under the comment "metrics", on a non-empty trade table. *)
Definition compute_metrics (trades_df : list Trade) : Metrics :=
  let pnls := map PnL trades_df in
  let total_pnl := sumQ pnls in
  let cumulative := cumsum pnls in
  let running_max := cummax cumulative in
  let drawdown := sub_lists cumulative running_max in
  let max_dd := list_min drawdown in
  let total_trades := Z.of_nat (length trades_df) in
  let win_rate :=
    inject_Z (Z.of_nat (count_wins pnls)) / inject_Z total_trades * 100 in
  let avg_pnl := total_pnl / inject_Z total_trades in
  mkMetrics total_pnl max_dd total_trades win_rate avg_pnl.

(** ** The two backtests *)

Definition date_leb (a b : Trade) : bool := (Date a <=? Date b)%Z.

Definition date_entry_leb (a b : Trade) : bool :=
  (Date a <? Date b)%Z || ((Date a =? Date b)%Z && (EntryTime a <=? EntryTime b)%Z).

Definition normalize_sl (pct : Q) (sl_pct : option Q) : Q :=
  match sl_pct with None => pct | Some s => s end.

(** The sessions of a run: every day of the table with its rows inside the
    trading window. *)
Definition sessions (hist_df : list Candle) (start_time end_time : Z)
  : list (Z * list Candle) :=
  map (fun g => (fst g, between_time start_time end_time (snd g)))
      (groupby_trade_date (sort_index hist_df)).

(** The list [trades] when the loop over the days ends. *)
Definition emitted (hist_df : list Candle) (pct : Q) (sl_pct : option Q)
    (start_time end_time : Z) : list Trade :=
  flat_map (fun s => day_trades pct (normalize_sl pct sl_pct) (fst s) (snd s))
           (sessions hist_df start_time end_time).

Definition emitted2 (hist_df : list Candle) (pct : Q) (sl_pct : option Q)
    (start_time end_time : Z) : list Trade :=
  flat_map (fun s => day_trades2 pct (normalize_sl pct sl_pct) (fst s) (snd s))
           (sessions hist_df start_time end_time).

Definition backtest_intraday_open_breakout (hist_df : list Candle) (pct : Q)
    (sl_pct : option Q) (start_time end_time : Z) : list Trade * Metrics :=
  match emitted hist_df pct sl_pct start_time end_time with
  | [] => ([], zero_metrics)
  | trades =>
      let trades_df := stable_sort date_leb trades in
      (trades_df, compute_metrics trades_df)
  end.

Definition backtest_intraday_open_breakout2 (hist_df : list Candle) (pct : Q)
    (sl_pct : option Q) (start_time end_time : Z) : list Trade * Metrics :=
  match emitted2 hist_df pct sl_pct start_time end_time with
  | [] => ([], zero_metrics)
  | trades =>
      let trades_df := stable_sort date_entry_leb trades in
      (trades_df, compute_metrics trades_df)
  end.

(** Defaults of the keyword arguments: [pct=0.005], ["0:15"] (or ["00:15"])
    and ["23:35"]. *)
Definition default_pct : Q := 0.005.
Definition default_start_time : Z := (15 * 60)%Z.
Definition default_end_time : Z := (23 * 3600 + 35 * 60)%Z.

(** ** [filter_by_date] *)

(** A table with an explicit row index, as [filter_by_date] receives it. *)
Definition Frame : Type := list (Z * Candle).

(** Midnight of a calendar day: the timestamp a ["YYYY-MM-DD"] string denotes
    when it is compared with the [time] column. *)
Definition midnight (day : Z) : Z := (day * day_seconds)%Z.

(** [reset_index(drop=True)]. *)
Definition reset_index (rows : list Candle) : Frame :=
  combine (map Z.of_nat (seq 0 (length rows))) rows.

Definition filter_by_date (df : Frame) (start_date end_date : Z) : Frame :=
  let mask := fun r : Z * Candle =>
    ((midnight start_date <=? time (snd r)) &&
     (time (snd r) <=? midnight end_date))%Z in
  reset_index (map snd (filter mask df)).

(** ** Notions used to state the properties *)

(** The stop level of a position: [entry * (1 - sl_pct)] for LONG and
    [entry * (1 + sl_pct)] for SHORT. *)
Definition stop_level (sl_pct : Q) (trade_type : TradeType) (entry : Q) : Q :=
  match trade_type with
  | LONG => entry * (1 - sl_pct)
  | SHORT => entry * (1 + sl_pct)
  end.

(** The record appended for a position entered at [entry] and [trigger_ts]. *)
Definition close_trade (day : Z) (trade_type : TradeType) (entry : Q)
    (trigger_ts : Z) (sl : Q) (first : Candle) (day_data : list Candle)
  : Trade :=
  let r := manage_exit trade_type sl trigger_ts first day_data in
  mkTrade day trade_type entry (fst (fst r))
          (pnl_of trade_type entry (fst (fst r))) (snd r)
          trigger_ts (snd (fst r)).

(** The session of a calendar day: its rows inside the trading window, in
    time order. *)
Definition session_of (hist_df : list Candle) (start_time end_time day : Z)
  : list Candle :=
  between_time start_time end_time
    (filter (fun c => (trade_date c =? day)%Z) (sort_index hist_df)).

(** The rows of a trade table that belong to one day. *)
Definition trades_on (day : Z) (table : list Trade) : list Trade :=
  filter (fun t => (Date t =? day)%Z) table.

Definition day_open_of (day_data : list Candle) : Q :=
  match day_data with [] => 0 | first :: _ => open first end.

Definition long_trigger_of (pct : Q) (day_data : list Candle) : Q :=
  day_open_of day_data * (1 + pct).

Definition short_trigger_of (pct : Q) (day_data : list Candle) : Q :=
  day_open_of day_data * (1 - pct).

(** A candle touches neither trigger. *)
Definition no_touch (long_trigger short_trigger : Q) (row : Candle) : Prop :=
  ~ long_trigger <= high row /\ ~ low row <= short_trigger.

(** A record of the trade table is well formed for a session: it is what
    [close_trade] builds from its own direction, entry and entry time, with
    the stop level of that direction, and it was entered on a row of the
    session. *)
Definition managed (sl_pct : Q) (day : Z) (day_data : list Candle) (t : Trade)
  : Prop :=
  exists first rest,
    day_data = first :: rest /\
    t = close_trade day (Type_ t) (Entry t) (EntryTime t)
                    (stop_level sl_pct (Type_ t) (Entry t)) first day_data /\
    exists c, In c day_data /\ time c = EntryTime t.

(** The loop over the days with an arbitrary loop body [f]; [emitted] and
    [emitted2] are its two instances. *)
Definition run_days (f : Z -> list Candle -> list Trade)
    (hist_df : list Candle) (start_time end_time : Z) : list Trade :=
  flat_map (fun s => f (fst s) (snd s)) (sessions hist_df start_time end_time).

(** ** A sample run *)

(** Three days of candles.  Day 0 opens at 100, breaks out upwards, is
    stopped out and reverses; on day 1 one candle touches both triggers; on
    day 2 the breakout happens on the last candle of the window. *)
Definition sample_hist : list Candle :=
  [ mkCandle 900 100 100.5 99.5 100.2;
    mkCandle 1200 100.2 101.5 100.6 101.2;
    mkCandle 1500 101.2 101.3 100.4 100.6;
    mkCandle 1800 100.6 100.7 100.5 100.6;
    mkCandle 87300 200 200.5 199.5 200.1;
    mkCandle 87600 200.1 203 197 201;
    mkCandle 87900 201 201.5 200.5 201.2;
    mkCandle 173700 50 50.2 49.8 50.1;
    mkCandle 174000 50.1 50.3 49.2 49.4 ].

Definition sample_pct : Q := 0.01.
Definition sample_sl_pct : option Q := Some 0.005.

Definition sample_table : list Trade :=
  fst (backtest_intraday_open_breakout sample_hist sample_pct sample_sl_pct
         default_start_time default_end_time).

Definition sample_table2 : list Trade :=
  fst (backtest_intraday_open_breakout2 sample_hist sample_pct sample_sl_pct
         default_start_time default_end_time).

Definition no_trade : Trade := mkTrade 0 LONG 0 0 0 false 0 0.

(** Rows of the sample table of the two-trade backtest: the first trade of
    day 0, its reversal, and the trade of day 2. *)
Definition sample_day1 : list Candle :=
  session_of sample_hist default_start_time default_end_time 1.

Definition sample_first : Trade := nth 0 sample_table2 no_trade.
Definition sample_reversal : Trade := nth 1 sample_table2 no_trade.
Definition sample_last_entry : Trade := nth 4 sample_table2 no_trade.

(** A table on which no trigger is touched, and one with a single winning
    trade. *)
Definition quiet_hist : list Candle :=
  [ mkCandle 900 100 100.5 99.5 100.2;
    mkCandle 1200 100.2 100.4 99.9 100 ].

Definition rising_hist : list Candle :=
  [ mkCandle 173700 50 50.2 49.8 50.1;
    mkCandle 174000 50.1 50.3 49.2 49.4 ].

Definition rising_run : list Trade * Metrics :=
  backtest_intraday_open_breakout rising_hist sample_pct sample_sl_pct
    default_start_time default_end_time.

(** The date-range filter as the specification words it: the rows whose
    calendar date lies in the closed range of dates, every candle of both
    boundary dates included, with the index reset. *)
Definition filter_by_date_spec (df : Frame) (start_date end_date : Z) : Frame :=
  let mask := fun r : Z * Candle =>
    ((start_date <=? trade_date (snd r)) &&
     (trade_date (snd r) <=? end_date))%Z in
  reset_index (map snd (filter mask df)).

(** A frame of three candles, at 23:55 of day 0 and at 00:00 and 00:05 of
    day 1, with a row index that does not start at 0. *)
Definition sample_frame : Frame :=
  [ (7%Z, mkCandle 86100 100 100.5 99.5 100.2);
    (8%Z, mkCandle 86400 100.2 100.6 100 100.4);
    (9%Z, mkCandle 86700 100.4 100.8 100.1 100.3) ].

(** ** Further notions *)

(** A candle touches the stop of a position: its low reaches the stop of a
    LONG, its high the stop of a SHORT. *)
Definition stop_touch (trade_type : TradeType) (sl : Q) (row : Candle) : Prop :=
  match trade_type with
  | LONG => (low row <= sl)%Q
  | SHORT => (sl <= high row)%Q
  end.

(** The stop level of a record of the trade table, from its own fields. *)
Definition stop_of (sl_pct : Q) (t : Trade) : Q :=
  stop_level sl_pct (Type_ t) (Entry t).



Definition sample_run2 (hist_df : list Candle) : list Trade :=
  fst (backtest_intraday_open_breakout2 hist_df sample_pct sample_sl_pct
         default_start_time default_end_time).

(** * Properties *)

(** ** Sorting and list lemmas *)

Section SortingFacts.
Context {A : Type} (leb : A -> A -> bool).

Lemma insert_sorted_perm (x : A) (l : list A) :
  Permutation (insert_sorted leb x l) (x :: l).
Proof.
  induction l as [|y r IH]; simpl.
  - apply Permutation_refl.
  - destruct (leb x y).
    + apply Permutation_refl.
    + eapply perm_trans; [apply perm_skip, IH | apply perm_swap].
Qed.

Lemma stable_sort_perm (l : list A) : Permutation (stable_sort leb l) l.
Proof.
  induction l as [|x r IH]; simpl.
  - constructor.
  - eapply perm_trans; [apply insert_sorted_perm | apply perm_skip, IH].
Qed.

Lemma stable_sort_In (x : A) (l : list A) :
  In x (stable_sort leb l) <-> In x l.
Proof.
  split; apply Permutation_in;
    [apply stable_sort_perm | apply Permutation_sym, stable_sort_perm].
Qed.

(** A list that is already in order is left as it is. *)
Lemma stable_sort_id (l : list A) :
  StronglySorted (fun a b => leb a b = true) l -> stable_sort leb l = l.
Proof.
  induction 1 as [|x r Hr IH Hx]; simpl; [reflexivity|].
  rewrite IH. destruct r as [|y r']; simpl; [reflexivity|].
  inversion Hx as [|? ? Hxy _]; subst. now rewrite Hxy.
Qed.

Hypothesis leb_total : forall a b, leb a b = false -> leb b a = true.
Hypothesis leb_trans :
  forall a b c, leb a b = true -> leb b c = true -> leb a c = true.

Lemma insert_sorted_sorted (x : A) (l : list A) :
  StronglySorted (fun a b => leb a b = true) l ->
  StronglySorted (fun a b => leb a b = true) (insert_sorted leb x l).
Proof.
  induction 1 as [|y r Hr IH Hy]; simpl.
  - repeat constructor.
  - destruct (leb x y) eqn:E.
    + constructor; [now constructor|].
      constructor; [exact E|].
      rewrite Forall_forall in Hy |- *. intros z Hz.
      eapply leb_trans; [exact E | now apply Hy].
    + constructor; [exact IH|].
      rewrite Forall_forall in Hy |- *. intros z Hz.
      apply (Permutation_in _ (insert_sorted_perm x r)) in Hz.
      destruct Hz as [<-|Hz]; [now apply leb_total | now apply Hy].
Qed.

Lemma stable_sort_sorted (l : list A) :
  StronglySorted (fun a b => leb a b = true) (stable_sort leb l).
Proof.
  induction l as [|x r IH]; simpl; [constructor|].
  now apply insert_sorted_sorted.
Qed.
End SortingFacts.

Lemma StronglySorted_filter {A : Type} (R : A -> A -> Prop) (p : A -> bool)
    (l : list A) :
  StronglySorted R l -> StronglySorted R (filter p l).
Proof.
  induction 1 as [|x r Hr IH Hx]; simpl; [constructor|].
  destruct (p x); [|exact IH].
  constructor; [exact IH|].
  rewrite Forall_forall in Hx |- *. intros y Hy.
  apply filter_In in Hy. now apply Hx.
Qed.

Lemma StronglySorted_weaken {A : Type} (R S : A -> A -> Prop) (l : list A) :
  (forall a b, In a l -> In b l -> R a b -> S a b) ->
  StronglySorted R l -> StronglySorted S l.
Proof.
  intros HRS H. induction H as [|x r Hr IH Hx]; [constructor|].
  constructor.
  - apply IH. intros a b Ha Hb. apply HRS; now right.
  - rewrite Forall_forall in Hx |- *. intros y Hy.
    apply HRS; [now left | now right | now apply Hx].
Qed.

Lemma StronglySorted_app {A : Type} (R : A -> A -> Prop) (l1 l2 : list A) :
  StronglySorted R l1 -> StronglySorted R l2 ->
  (forall a b, In a l1 -> In b l2 -> R a b) ->
  StronglySorted R (l1 ++ l2).
Proof.
  intros H1 H2 H12. induction H1 as [|x r Hr IH Hx]; simpl; [exact H2|].
  constructor.
  - apply IH. intros a b Ha Hb. apply H12; [now right | exact Hb].
  - apply Forall_app. split; [exact Hx|].
    rewrite Forall_forall. intros y Hy. apply H12; [now left | exact Hy].
Qed.

Lemma StronglySorted_map {A B : Type} (R : B -> B -> Prop) (f : A -> B)
    (l : list A) :
  StronglySorted R (map f l) <-> StronglySorted (fun a b => R (f a) (f b)) l.
Proof.
  induction l as [|x r IH]; simpl.
  - split; constructor.
  - split; intros H; inversion H as [|? ? Hr Hx]; subst; constructor;
      try (now apply IH).
    + rewrite Forall_forall in Hx |- *. intros y Hy.
      apply Hx. now apply in_map.
    + rewrite Forall_forall in Hx |- *. intros y Hy.
      apply in_map_iff in Hy. destruct Hy as [a [<- Ha]]. now apply Hx.
Qed.

Lemma dropwhile_suffix {A : Type} (p : A -> bool) (l : list A) :
  exists pre, l = pre ++ dropwhile p l.
Proof.
  induction l as [|x r [pre IH]]; simpl.
  - now exists [].
  - destruct (p x).
    + exists (x :: pre). simpl. now f_equal.
    + now exists [].
Qed.

Lemma dropwhile_In {A : Type} (p : A -> bool) (l : list A) (x : A) :
  In x (dropwhile p l) -> In x l.
Proof.
  destruct (dropwhile_suffix p l) as [pre E]. intros H.
  rewrite E. apply in_or_app. now right.
Qed.

Lemma tl_In {A : Type} (l : list A) (x : A) : In x (tl l) -> In x l.
Proof. destruct l; simpl; [easy | now right]. Qed.

Lemma last_In {A : Type} (l : list A) (d : A) : l <> [] -> In (last l d) l.
Proof.
  induction l as [|x r IH]; [easy|]. intros _.
  destruct r as [|y r']; [now left|].
  right. apply IH. discriminate.
Qed.

Lemma last_snoc {A : Type} (l : list A) (x d : A) : last (l ++ [x]) d = x.
Proof. apply last_last. Qed.

(** ** Sessions *)

Open Scope Z_scope.

Lemma sort_index_sorted (df : list Candle) :
  StronglySorted (fun a b => time a <= time b) (sort_index df).
Proof.
  unfold sort_index.
  eapply StronglySorted_weaken;
    [| apply (stable_sort_sorted (fun a b => time a <=? time b))].
  - intros a b _ _ H. now apply Z.leb_le.
  - intros a b H. apply Z.leb_gt in H. apply Z.leb_le. lia.
  - intros a b c H1 H2. apply Z.leb_le in H1, H2. apply Z.leb_le. lia.
Qed.

Lemma sort_index_In (df : list Candle) (c : Candle) :
  In c (sort_index df) <-> In c df.
Proof. apply stable_sort_In. Qed.

Lemma group_keys_In (df : list Candle) (day : Z) :
  In day (group_keys df) <-> exists c, In c df /\ trade_date c = day.
Proof.
  unfold group_keys. rewrite stable_sort_In, nodup_In, in_map_iff.
  split; intros [c [H1 H2]]; exists c; tauto.
Qed.

Lemma group_keys_sorted (df : list Candle) :
  StronglySorted Z.lt (group_keys df).
Proof.
  unfold group_keys.
  assert (Hnd : NoDup (stable_sort Z.leb (nodup Z.eq_dec (map trade_date df)))).
  { eapply Permutation_NoDup;
      [apply Permutation_sym, stable_sort_perm | apply NoDup_nodup]. }
  assert (Hs : StronglySorted (fun a b => (a <=? b) = true)
                 (stable_sort Z.leb (nodup Z.eq_dec (map trade_date df)))).
  { apply stable_sort_sorted.
    - intros a b H. apply Z.leb_gt in H. apply Z.leb_le. lia.
    - intros a b c H1 H2. apply Z.leb_le in H1, H2. apply Z.leb_le. lia. }
  revert Hnd Hs.
  generalize (stable_sort Z.leb (nodup Z.eq_dec (map trade_date df))).
  induction l as [|x r IH]; intros Hnd Hs; [constructor|].
  inversion Hnd as [|? ? Hx Hr]; subst.
  inversion Hs as [|? ? Hs' Hall]; subst.
  constructor; [now apply IH|].
  rewrite Forall_forall in Hall |- *. intros y Hy.
  specialize (Hall y Hy). apply Z.leb_le in Hall.
  assert (x <> y) by (intros ->; contradiction). lia.
Qed.

Lemma sessions_keys (hist_df : list Candle) (start_time end_time : Z) :
  map fst (sessions hist_df start_time end_time)
  = group_keys (sort_index hist_df).
Proof.
  unfold sessions, groupby_trade_date. rewrite !map_map. simpl.
  apply map_id.
Qed.

Lemma sessions_eq (hist_df : list Candle) (start_time end_time : Z) :
  sessions hist_df start_time end_time
  = map (fun day => (day, session_of hist_df start_time end_time day))
        (group_keys (sort_index hist_df)).
Proof.
  unfold sessions, groupby_trade_date. now rewrite map_map.
Qed.

Lemma session_of_In (hist_df : list Candle) (start_time end_time day : Z)
    (c : Candle) :
  In c (session_of hist_df start_time end_time day) <->
  In c hist_df /\ trade_date c = day /\
  in_window start_time end_time (time_of_day (time c)) = true.
Proof.
  unfold session_of, between_time.
  rewrite !filter_In, sort_index_In, Z.eqb_eq. tauto.
Qed.

Lemma session_of_sorted (hist_df : list Candle) (start_time end_time day : Z) :
  StronglySorted (fun a b => time a <= time b)
                 (session_of hist_df start_time end_time day).
Proof.
  unfold session_of, between_time.
  do 2 apply StronglySorted_filter. apply sort_index_sorted.
Qed.

Lemma session_of_key (hist_df : list Candle) (start_time end_time day : Z) :
  session_of hist_df start_time end_time day <> [] ->
  In day (group_keys (sort_index hist_df)).
Proof.
  intros H. destruct (session_of hist_df start_time end_time day) as [|c r] eqn:E;
    [easy|].
  assert (Hc : In c (session_of hist_df start_time end_time day))
    by (rewrite E; now left).
  apply session_of_In in Hc. destruct Hc as [Hc [Hd _]].
  apply group_keys_In. exists c. now rewrite sort_index_In.
Qed.

(** ** One session *)

Open Scope Q_scope.

Lemma find_trigger_Some (lt st sl_pct : Q) (rows : list Candle)
    (entry : Q) (ts : Z) (ty : TradeType) (sl : Q) :
  find_trigger lt st sl_pct rows = Some (entry, ts, ty, sl) ->
  (exists c, In c rows /\ time c = ts) /\
  sl = stop_level sl_pct ty entry /\
  ((ty = LONG /\ entry = lt) \/ (ty = SHORT /\ entry = st)).
Proof.
  induction rows as [|row rest IH]; simpl; [discriminate|].
  destruct (Qle_bool lt (high row)).
  - intros [= <- <- <- <-]. split; [exists row; auto|]. split; auto.
  - destruct (Qle_bool (low row) st).
    + intros [= <- <- <- <-]. split; [exists row; auto|]. split; auto.
    + intros H. destruct (IH H) as [[c [Hc Ht]] Hrest].
      split; [exists c; auto | exact Hrest].
Qed.

Lemma find_stop_Some (ty : TradeType) (sl : Q) (after : list Candle)
    (p : Q) (ts : Z) :
  find_stop ty sl after = Some (p, ts) ->
  p = sl /\ exists c, In c after /\ time c = ts.
Proof.
  induction after as [|row rest IH]; simpl; [discriminate|].
  destruct ty.
  - destruct (Qle_bool (low row) sl).
    + intros [= <- <-]. split; [reflexivity | exists row; auto].
    + intros H. destruct (IH H) as [-> [c [Hc Ht]]].
      split; [reflexivity | exists c; auto].
  - destruct (Qle_bool sl (high row)).
    + intros [= <- <-]. split; [reflexivity | exists row; auto].
    + intros H. destruct (IH H) as [-> [c [Hc Ht]]].
      split; [reflexivity | exists c; auto].
Qed.

Lemma day_trades_unfold (pct sl_pct : Q) (day : Z) (first : Candle)
    (rest : list Candle) :
  day_trades pct sl_pct day (first :: rest) =
  match find_trigger (long_trigger_of pct (first :: rest))
                     (short_trigger_of pct (first :: rest)) sl_pct
                     (first :: rest) with
  | None => []
  | Some (entry, ts, ty, sl) =>
      [close_trade day ty entry ts sl first (first :: rest)]
  end.
Proof.
  unfold day_trades, long_trigger_of, short_trigger_of, day_open_of.
  cbv zeta.
  destruct (find_trigger _ _ _ _) as [[[[entry ts] ty] sl]|]; [|reflexivity].
  unfold close_trade.
  destruct (manage_exit ty sl ts first (first :: rest)) as [[p e] h].
  reflexivity.
Qed.

Lemma day_trades2_unfold (pct sl_pct : Q) (day : Z) (first : Candle)
    (rest : list Candle) :
  day_trades2 pct sl_pct day (first :: rest) =
  match find_trigger (long_trigger_of pct (first :: rest))
                     (short_trigger_of pct (first :: rest)) sl_pct
                     (first :: rest) with
  | None => []
  | Some (entry, ts, ty, sl) =>
      let t1 := close_trade day ty entry ts sl first (first :: rest) in
      if StopHit t1 then
        [t1;
         close_trade day (opposite ty) (Exit t1) (ExitTime t1)
                     (stop_level sl_pct (opposite ty) (Exit t1))
                     first (first :: rest)]
      else [t1]
  end.
Proof.
  unfold day_trades2, long_trigger_of, short_trigger_of, day_open_of.
  cbv zeta.
  destruct (find_trigger _ _ _ _) as [[[[entry ts] ty] sl]|]; [|reflexivity].
  unfold close_trade.
  destruct (manage_exit ty sl ts first (first :: rest)) as [[p e] h].
  cbn [fst snd StopHit Exit ExitTime].
  destruct h; cbn [andb Nat.ltb Nat.leb]; [|reflexivity].
  unfold stop_level.
  destruct (opposite ty);
    match goal with
    | |- context [manage_exit ?a ?b ?c ?d ?e] =>
        destruct (manage_exit a b c d e) as [[p2 e2] h2]
    end; reflexivity.
Qed.

Lemma close_trade_stop (day : Z) (ty : TradeType) (entry : Q) (ts : Z)
    (sl : Q) (first : Candle) (dd : list Candle) :
  StopHit (close_trade day ty entry ts sl first dd) = true ->
  Exit (close_trade day ty entry ts sl first dd) = sl /\
  exists c, In c (iloc_from1 (loc_from ts dd)) /\
            time c = ExitTime (close_trade day ty entry ts sl first dd).
Proof.
  unfold close_trade, manage_exit. cbn [StopHit Exit ExitTime].
  destruct (find_stop ty sl (iloc_from1 (loc_from ts dd))) as [[p e]|] eqn:E;
    cbn [fst snd]; [|discriminate].
  intros _. now apply find_stop_Some in E.
Qed.

Lemma close_trade_close (day : Z) (ty : TradeType) (entry : Q) (ts : Z)
    (sl : Q) (first : Candle) (dd : list Candle) :
  StopHit (close_trade day ty entry ts sl first dd) = false ->
  Exit (close_trade day ty entry ts sl first dd) = close (last dd first) /\
  ExitTime (close_trade day ty entry ts sl first dd) = time (last dd first).
Proof.
  unfold close_trade, manage_exit. cbn [StopHit Exit ExitTime].
  destruct (find_stop ty sl (iloc_from1 (loc_from ts dd))) as [[p e]|];
    cbn [fst snd]; [discriminate|]. now split.
Qed.

Lemma after_In (ts : Z) (dd : list Candle) (c : Candle) :
  In c (iloc_from1 (loc_from ts dd)) -> In c dd.
Proof. intros H. eapply dropwhile_In, tl_In, H. Qed.

Lemma close_trade_managed (sl_pct : Q) (day : Z) (ty : TradeType) (entry : Q)
    (ts : Z) (first : Candle) (rest : list Candle) :
  (exists c, In c (first :: rest) /\ time c = ts) ->
  managed sl_pct day (first :: rest)
    (close_trade day ty entry ts (stop_level sl_pct ty entry)
                 first (first :: rest)).
Proof.
  intros H. exists first, rest. split; [reflexivity|].
  split; [reflexivity | exact H].
Qed.

Lemma day_trades_managed (pct sl_pct : Q) (day : Z) (dd : list Candle)
    (t : Trade) :
  In t (day_trades pct sl_pct day dd) -> managed sl_pct day dd t.
Proof.
  destruct dd as [|first rest]; [intros []|].
  rewrite day_trades_unfold.
  destruct (find_trigger _ _ _ _) as [[[[entry ts] ty] sl]|] eqn:E; [|intros []].
  apply find_trigger_Some in E. destruct E as [Hc [-> _]].
  intros [<-|[]]. now apply close_trade_managed.
Qed.

Lemma day_trades2_managed (pct sl_pct : Q) (day : Z) (dd : list Candle)
    (t : Trade) :
  In t (day_trades2 pct sl_pct day dd) -> managed sl_pct day dd t.
Proof.
  destruct dd as [|first rest]; [intros []|].
  rewrite day_trades2_unfold.
  destruct (find_trigger _ _ _ _) as [[[[entry ts] ty] sl]|] eqn:E; [|intros []].
  apply find_trigger_Some in E. destruct E as [Hc [-> _]].
  cbv zeta.
  destruct (StopHit (close_trade day ty entry ts _ first (first :: rest)))
    eqn:Hhit.
  - intros [<-|[<-|[]]].
    + now apply close_trade_managed.
    + apply close_trade_managed.
      apply close_trade_stop in Hhit. destruct Hhit as [_ [c [Hin Ht]]].
      exists c. split; [eapply after_In, Hin | exact Ht].
  - intros [<-|[]]. now apply close_trade_managed.
Qed.

(** What a well-formed record says about its own fields. *)

Lemma managed_date (sl_pct : Q) (day : Z) (dd : list Candle) (t : Trade) :
  managed sl_pct day dd t -> Date t = day.
Proof. intros [first [rest [_ [E _]]]]. now rewrite E. Qed.


Lemma managed_stop (sl_pct : Q) (day : Z) (dd : list Candle) (t : Trade) :
  managed sl_pct day dd t -> StopHit t = true ->
  Exit t = stop_level sl_pct (Type_ t) (Entry t) /\
  exists c, In c (iloc_from1 (loc_from (EntryTime t) dd)) /\
            time c = ExitTime t.
Proof.
  intros [first [rest [_ [E _]]]] H. rewrite E in H.
  apply close_trade_stop in H. now rewrite <- E in H.
Qed.

Lemma managed_close (sl_pct : Q) (day : Z) (dd : list Candle) (t : Trade) :
  managed sl_pct day dd t -> StopHit t = false ->
  forall pre lastc, dd = pre ++ [lastc] ->
  Exit t = close lastc /\ ExitTime t = time lastc.
Proof.
  intros [first [rest [Hdd [E _]]]] H pre lastc Hl. rewrite E in H.
  apply close_trade_close in H. rewrite <- E in H.
  now rewrite Hl, last_snoc in H.
Qed.

Open Scope Z_scope.

Lemma loc_from_ge (ts : Z) (dd : list Candle) (c : Candle) :
  StronglySorted (fun a b => time a <= time b) dd ->
  In c (loc_from ts dd) -> ts <= time c.
Proof.
  unfold loc_from. induction 1 as [|x r Hr IH Hx]; simpl; [intros []|].
  destruct (time x <? ts) eqn:E; [exact IH|].
  apply Z.ltb_ge in E. intros [<-|Hc]; [exact E|].
  rewrite Forall_forall in Hx. specialize (Hx c Hc). lia.
Qed.

Lemma sorted_le_last (dd : list Candle) (d c : Candle) :
  StronglySorted (fun a b => time a <= time b) dd ->
  In c dd -> time c <= time (last dd d).
Proof.
  induction 1 as [|x r Hr IH Hx]; [intros []|].
  intros [<-|Hc].
  - destruct r as [|y r']; [simpl; lia|].
    rewrite Forall_forall in Hx. apply Hx.
    apply (last_In (y :: r')). discriminate.
  - destruct r as [|y r']; [destruct Hc|].
    now apply IH.
Qed.

(** Both timestamps of a record are times of rows of the session, and the
    exit is not before the entry. *)
Lemma managed_times (sl_pct : Q) (day : Z) (dd : list Candle) (t : Trade) :
  StronglySorted (fun a b => time a <= time b) dd ->
  managed sl_pct day dd t ->
  EntryTime t <= ExitTime t /\
  (exists c, In c dd /\ time c = EntryTime t) /\
  (exists c, In c dd /\ time c = ExitTime t).
Proof.
  intros Hs Hm. pose proof Hm as [first [rest [Hdd [E [c [Hc Ht]]]]]].
  destruct (StopHit t) eqn:Hhit.
  - destruct (managed_stop _ _ _ _ Hm Hhit) as [_ [c' [Hc' Ht']]].
    split; [|split].
    + rewrite <- Ht'. apply (loc_from_ge _ dd); [exact Hs|].
      now apply tl_In.
    + now exists c.
    + exists c'. split; [eapply after_In, Hc' | exact Ht'].
  - rewrite E in Hhit. apply close_trade_close in Hhit. rewrite <- E in Hhit.
    destruct Hhit as [_ Hx]. split; [|split].
    + rewrite Hx, <- Ht. now apply sorted_le_last.
    + now exists c.
    + exists (last dd first). split; [|now rewrite Hx].
      apply last_In. now rewrite Hdd.
Qed.

(** ** The loop over the days *)

Lemma flat_map_sorted {K B : Type} (lt : K -> K -> Prop) (R : B -> B -> Prop)
    (g : K -> list B) (keys : list K) :
  StronglySorted lt keys ->
  (forall k, In k keys -> StronglySorted R (g k)) ->
  (forall k1 k2 a b, lt k1 k2 -> In a (g k1) -> In b (g k2) -> R a b) ->
  StronglySorted R (flat_map g keys).
Proof.
  intros Hk Hin Hout. induction Hk as [|k r Hr IH Hall]; simpl; [constructor|].
  apply StronglySorted_app.
  - apply Hin. now left.
  - apply IH. intros k' Hk'. apply Hin. now right.
  - intros a b Ha Hb. apply in_flat_map in Hb. destruct Hb as [k' [Hk' Hb]].
    rewrite Forall_forall in Hall. eapply Hout; eauto.
Qed.

Lemma filter_flat_map_key {B : Type} (key : B -> Z) (g : Z -> list B)
    (day : Z) (keys : list Z) :
  NoDup keys ->
  (forall k b, In b (g k) -> key b = k) ->
  (In day keys ->
   filter (fun b => key b =? day) (flat_map g keys) = g day) /\
  (~ In day keys ->
   filter (fun b => key b =? day) (flat_map g keys) = []).
Proof.
  intros Hnd Hkey.
  assert (Hsame : forall l, (forall b, In b l -> key b = day) ->
                            filter (fun b => key b =? day) l = l).
  { induction l as [|b l IH]; intros H; simpl; [reflexivity|].
    rewrite (proj2 (Z.eqb_eq _ _) (H b (or_introl eq_refl))).
    f_equal. apply IH. intros b' Hb'. apply H. now right. }
  assert (Hnone : forall l, (forall b, In b l -> key b <> day) ->
                            filter (fun b => key b =? day) l = []).
  { induction l as [|b l IH]; intros H; simpl; [reflexivity|].
    rewrite (proj2 (Z.eqb_neq _ _) (H b (or_introl eq_refl))).
    apply IH. intros b' Hb'. apply H. now right. }
  induction Hnd as [|k r Hk Hr [IHin IHout]]; simpl.
  - split; [intros [] | reflexivity].
  - rewrite filter_app. split.
    + intros [->|Hin].
      * rewrite (IHout Hk), app_nil_r.
        apply Hsame. intros b Hb. now apply Hkey.
      * rewrite (IHin Hin), Hnone; [reflexivity|].
        intros b Hb. rewrite (Hkey k b Hb). now intros ->.
    + intros Hn. rewrite IHout by tauto. rewrite Hnone; [reflexivity|].
      intros b Hb. rewrite (Hkey k b Hb). tauto.
Qed.

Lemma StronglySorted_lt_NoDup (l : list Z) : StronglySorted Z.lt l -> NoDup l.
Proof.
  induction 1 as [|x r Hr IH Hx]; constructor; [|exact IH].
  intros Hin. rewrite Forall_forall in Hx. specialize (Hx x Hin). lia.
Qed.

Section RunDays.
Variable sl_pct : Q.
Variable f : Z -> list Candle -> list Trade.
Variables (hist_df : list Candle) (start_time end_time : Z).

Hypothesis f_nil : forall day, f day [] = [].
Hypothesis f_managed :
  forall day dd t, In t (f day dd) -> managed sl_pct day dd t.
Hypothesis f_sorted :
  forall day dd,
    StronglySorted (fun a b => time a <= time b) dd ->
    StronglySorted (fun a b => EntryTime a <= EntryTime b) (f day dd).

Let session := session_of hist_df start_time end_time.
Let keys := group_keys (sort_index hist_df).

Lemma run_days_eq :
  run_days f hist_df start_time end_time
  = flat_map (fun day => f day (session day)) keys.
Proof.
  unfold run_days. rewrite sessions_eq, flat_map_concat_map, map_map.
  now rewrite <- flat_map_concat_map.
Qed.

(** The records of one day, in table order, are what the loop body
    appended for that day's session. *)
Lemma run_days_trades_on (day : Z) :
  trades_on day (run_days f hist_df start_time end_time)
  = f day (session day).
Proof.
  unfold trades_on. rewrite run_days_eq.
  destruct (filter_flat_map_key Date (fun d => f d (session d)) day keys)
    as [Hin Hout].
  - apply StronglySorted_lt_NoDup, group_keys_sorted.
  - intros k b Hb. eapply managed_date, f_managed, Hb.
  - destruct (in_dec Z.eq_dec day keys) as [Hk|Hn]; [now apply Hin|].
    rewrite (Hout Hn).
    destruct (session day) eqn:E; [now rewrite f_nil|].
    exfalso. apply Hn. apply (session_of_key hist_df start_time end_time).
    fold session. now rewrite E.
Qed.

Lemma run_days_managed (t : Trade) :
  In t (run_days f hist_df start_time end_time) ->
  managed sl_pct (Date t) (session (Date t)) t.
Proof.
  rewrite run_days_eq, in_flat_map. intros [day [_ Ht]].
  apply f_managed in Ht. now rewrite (managed_date _ _ _ _ Ht).
Qed.

Lemma run_days_entry_date (t : Trade) :
  In t (run_days f hist_df start_time end_time) ->
  date_of (EntryTime t) = Date t.
Proof.
  intros Ht. apply run_days_managed in Ht.
  destruct Ht as [_ [_ [_ [_ [c [Hc <-]]]]]].
  apply session_of_In in Hc. apply Hc.
Qed.

Lemma run_days_sorted :
  StronglySorted (fun a b => date_entry_leb a b = true)
                 (run_days f hist_df start_time end_time).
Proof.
  rewrite run_days_eq.
  apply (flat_map_sorted Z.lt); [apply group_keys_sorted | |].
  - intros k _.
    eapply StronglySorted_weaken;
      [| apply f_sorted, session_of_sorted].
    intros a b Ha Hb Hab. unfold date_entry_leb.
    rewrite (managed_date _ _ _ _ (f_managed _ _ _ Ha)).
    rewrite (managed_date _ _ _ _ (f_managed _ _ _ Hb)).
    rewrite Z.eqb_refl, (proj2 (Z.leb_le _ _) Hab).
    apply orb_true_r.
  - intros k1 k2 a b Hlt Ha Hb. unfold date_entry_leb.
    rewrite (managed_date _ _ _ _ (f_managed _ _ _ Ha)).
    rewrite (managed_date _ _ _ _ (f_managed _ _ _ Hb)).
    now rewrite (proj2 (Z.ltb_lt _ _) Hlt).
Qed.

(** Sorting the table by [Date], or by [Date] and [EntryTime], leaves the
    order of emission as it is. *)
Lemma run_days_sort_date :
  stable_sort date_leb (run_days f hist_df start_time end_time)
  = run_days f hist_df start_time end_time.
Proof.
  apply stable_sort_id.
  eapply StronglySorted_weaken; [|apply run_days_sorted].
  intros a b _ _. unfold date_entry_leb, date_leb.
  rewrite orb_true_iff, andb_true_iff, Z.ltb_lt, Z.eqb_eq, Z.leb_le. lia.
Qed.

Lemma run_days_sort_date_entry :
  stable_sort date_entry_leb (run_days f hist_df start_time end_time)
  = run_days f hist_df start_time end_time.
Proof. apply stable_sort_id, run_days_sorted. Qed.

Lemma run_days_entry_sorted :
  StronglySorted (fun a b => EntryTime a <= EntryTime b)
                 (run_days f hist_df start_time end_time).
Proof.
  eapply StronglySorted_weaken; [|apply run_days_sorted].
  intros a b Ha Hb. unfold date_entry_leb.
  rewrite orb_true_iff, andb_true_iff, Z.ltb_lt, Z.eqb_eq, Z.leb_le.
  intros [Hlt|[_ Hle]]; [|exact Hle].
  rewrite <- (run_days_entry_date a Ha), <- (run_days_entry_date b Hb) in Hlt.
  unfold date_of in Hlt.
  destruct (Z_le_gt_dec (EntryTime a) (EntryTime b)) as [H|H]; [exact H|].
  assert (EntryTime b / day_seconds <= EntryTime a / day_seconds)
    by (apply Z.div_le_mono; [reflexivity | lia]).
  lia.
Qed.
End RunDays.

(** ** The two loop bodies as instances *)

Lemma day_trades_length (pct sl_pct : Q) (day : Z) (dd : list Candle) :
  (length (day_trades pct sl_pct day dd) <= 1)%nat.
Proof.
  destruct dd as [|first rest]; [simpl; lia|].
  rewrite day_trades_unfold.
  destruct (find_trigger _ _ _ _) as [[[[entry ts] ty] sl]|]; simpl; lia.
Qed.

Lemma day_trades_entry_sorted (pct sl_pct : Q) (day : Z) (dd : list Candle) :
  StronglySorted (fun a b => EntryTime a <= EntryTime b)
                 (day_trades pct sl_pct day dd).
Proof.
  pose proof (day_trades_length pct sl_pct day dd) as H.
  destruct (day_trades pct sl_pct day dd) as [|t [|t' r]];
    [constructor | repeat constructor | simpl in H; lia].
Qed.

(** The three shapes of a day of the two-trade loop body. *)
Lemma day_trades2_shape (pct sl_pct : Q) (day : Z) (dd : list Candle) :
  day_trades2 pct sl_pct day dd = [] \/
  (exists t1, day_trades2 pct sl_pct day dd = [t1] /\ StopHit t1 = false) \/
  (exists t1 t2,
     day_trades2 pct sl_pct day dd = [t1; t2] /\ StopHit t1 = true /\
     Entry t2 = Exit t1 /\ EntryTime t2 = ExitTime t1 /\
     Type_ t2 = opposite (Type_ t1)).
Proof.
  destruct dd as [|first rest]; [now left|].
  rewrite day_trades2_unfold.
  destruct (find_trigger _ _ _ _) as [[[[entry ts] ty] sl]|]; [|now left].
  cbv zeta. right.
  destruct (StopHit (close_trade day ty entry ts sl first (first :: rest)))
    eqn:Hhit.
  - right. eexists. eexists. split; [reflexivity|]. now repeat split.
  - left. eexists. now split.
Qed.

Lemma day_trades2_entry_sorted (pct sl_pct : Q) (day : Z) (dd : list Candle) :
  StronglySorted (fun a b => time a <= time b) dd ->
  StronglySorted (fun a b => EntryTime a <= EntryTime b)
                 (day_trades2 pct sl_pct day dd).
Proof.
  intros Hs.
  destruct (day_trades2_shape pct sl_pct day dd)
    as [E|[[t1 [E _]]|[t1 [t2 [E [_ [_ [Ht _]]]]]]]].
  - rewrite E. constructor.
  - rewrite E. repeat constructor.
  - assert (Hm : managed sl_pct day dd t1)
      by (apply (day_trades2_managed pct); rewrite E; now left).
    rewrite E. repeat constructor. rewrite Ht.
    apply (managed_times _ _ _ _ Hs Hm).
Qed.

Lemma emitted_run (hist_df : list Candle) (pct : Q) (sl_pct : option Q)
    (start_time end_time : Z) :
  emitted hist_df pct sl_pct start_time end_time
  = run_days (day_trades pct (normalize_sl pct sl_pct))
             hist_df start_time end_time.
Proof. reflexivity. Qed.

Lemma emitted2_run (hist_df : list Candle) (pct : Q) (sl_pct : option Q)
    (start_time end_time : Z) :
  emitted2 hist_df pct sl_pct start_time end_time
  = run_days (day_trades2 pct (normalize_sl pct sl_pct))
             hist_df start_time end_time.
Proof. reflexivity. Qed.

(** The returned trade table is the list of emitted records, in the order
    of emission. *)
Lemma backtest_table (hist_df : list Candle) (pct : Q) (sl_pct : option Q)
    (start_time end_time : Z) :
  fst (backtest_intraday_open_breakout hist_df pct sl_pct start_time end_time)
  = emitted hist_df pct sl_pct start_time end_time.
Proof.
  unfold backtest_intraday_open_breakout.
  destruct (emitted hist_df pct sl_pct start_time end_time) as [|t r] eqn:E;
    [reflexivity|].
  cbn [fst]. rewrite <- E, emitted_run.
  apply (run_days_sort_date (normalize_sl pct sl_pct)).
  - intros. now apply day_trades_managed with (pct := pct).
  - intros. apply day_trades_entry_sorted.
Qed.

Lemma backtest2_table (hist_df : list Candle) (pct : Q) (sl_pct : option Q)
    (start_time end_time : Z) :
  fst (backtest_intraday_open_breakout2 hist_df pct sl_pct start_time end_time)
  = emitted2 hist_df pct sl_pct start_time end_time.
Proof.
  unfold backtest_intraday_open_breakout2.
  destruct (emitted2 hist_df pct sl_pct start_time end_time) as [|t r] eqn:E;
    [reflexivity|].
  cbn [fst]. rewrite <- E, emitted2_run.
  apply (run_days_sort_date_entry (normalize_sl pct sl_pct)).
  - intros. now apply day_trades2_managed with (pct := pct).
  - intros. now apply day_trades2_entry_sorted.
Qed.

(** Every row of either returned table is a well-formed record of the
    session of its own date. *)
Lemma table_managed (hist_df : list Candle) (pct : Q) (sl_pct : option Q)
    (start_time end_time : Z) (t : Trade) :
  In t (fst (backtest_intraday_open_breakout hist_df pct sl_pct
                                             start_time end_time)) \/
  In t (fst (backtest_intraday_open_breakout2 hist_df pct sl_pct
                                              start_time end_time)) ->
  managed (normalize_sl pct sl_pct) (Date t)
          (session_of hist_df start_time end_time (Date t)) t.
Proof.
  rewrite backtest_table, backtest2_table, emitted_run, emitted2_run.
  intros [H|H]; revert H; apply run_days_managed.
  - intros. now apply day_trades_managed with (pct := pct).
  - intros. now apply day_trades2_managed with (pct := pct).
Qed.

(** * The claims *)

Open Scope Q_scope.

(** C1. In either returned trade table, a record with [StopHit = true] exits
    at the stop level of its direction, [Entry * (1 - sl_pct)] for LONG and
    [Entry * (1 + sl_pct)] for SHORT; a record with [StopHit = false] exits at
    the close of the last candle of its session, at that candle's time. *)
Theorem C1_exit_follows_stop_flag (hist_df : list Candle) (pct : Q)
    (sl_pct : option Q) (start_time end_time : Z) (t : Trade) :
  In t (fst (backtest_intraday_open_breakout hist_df pct sl_pct
                                             start_time end_time)) \/
  In t (fst (backtest_intraday_open_breakout2 hist_df pct sl_pct
                                              start_time end_time)) ->
  (StopHit t = true ->
   Exit t = match Type_ t with
            | LONG => Entry t * (1 - normalize_sl pct sl_pct)
            | SHORT => Entry t * (1 + normalize_sl pct sl_pct)
            end) /\
  (StopHit t = false ->
   exists pre lastc,
     session_of hist_df start_time end_time (Date t) = pre ++ [lastc] /\
     Exit t = close lastc /\ ExitTime t = time lastc).
Proof.
  intros Hin. apply table_managed in Hin. split; intros Hhit.
  - apply (managed_stop _ _ _ _ Hin Hhit).
  - pose proof Hin as [first [rest [Hdd _]]].
    destruct (exists_last (l := session_of hist_df start_time end_time (Date t)))
      as [pre [lastc E]]; [now rewrite Hdd|].
    exists pre, lastc. split; [exact E|].
    apply (managed_close _ _ _ _ Hin Hhit pre lastc E).
Qed.

Lemma C1_witness :
  (In sample_reversal sample_table \/ In sample_reversal sample_table2) /\
  (StopHit sample_reversal = true ->
   Exit sample_reversal
   = match Type_ sample_reversal with
     | LONG => Entry sample_reversal
               * (1 - normalize_sl sample_pct sample_sl_pct)
     | SHORT => Entry sample_reversal
                * (1 + normalize_sl sample_pct sample_sl_pct)
     end) /\
  (StopHit sample_reversal = false ->
   exists pre lastc,
     session_of sample_hist default_start_time default_end_time
                (Date sample_reversal)
     = pre ++ [lastc] /\
     Exit sample_reversal = close lastc /\
     ExitTime sample_reversal = time lastc).
Proof.
  assert (Hin : In sample_reversal sample_table \/
                In sample_reversal sample_table2)
    by (right; vm_compute; right; left; reflexivity).
  split; [exact Hin|].
  exact (C1_exit_follows_stop_flag sample_hist sample_pct sample_sl_pct
           default_start_time default_end_time _ Hin).
Defined.

(** C2. For every calendar day, the table of the single-trade backtest holds
    at most one record; the table of the two-trade backtest holds at most
    two, and holds a second one exactly when the first has [StopHit = true]. *)
Theorem C2_trades_per_day (hist_df : list Candle) (pct : Q)
    (sl_pct : option Q) (start_time end_time day : Z) :
  (length (trades_on day
             (fst (backtest_intraday_open_breakout hist_df pct sl_pct
                     start_time end_time))) <= 1)%nat /\
  (length (trades_on day
             (fst (backtest_intraday_open_breakout2 hist_df pct sl_pct
                     start_time end_time))) <= 2)%nat /\
  (forall t1 rest,
     trades_on day
       (fst (backtest_intraday_open_breakout2 hist_df pct sl_pct
               start_time end_time)) = t1 :: rest ->
     (exists t2, rest = [t2]) <-> StopHit t1 = true).
Proof.
  rewrite backtest_table, backtest2_table, emitted_run, emitted2_run.
  rewrite (run_days_trades_on (normalize_sl pct sl_pct)
             (day_trades pct (normalize_sl pct sl_pct)));
    [| reflexivity | intros; now apply day_trades_managed with (pct := pct)].
  rewrite (run_days_trades_on (normalize_sl pct sl_pct)
             (day_trades2 pct (normalize_sl pct sl_pct)));
    [| reflexivity | intros; now apply day_trades2_managed with (pct := pct)].
  split; [apply day_trades_length|].
  destruct (day_trades2_shape pct (normalize_sl pct sl_pct) day
              (session_of hist_df start_time end_time day))
    as [E|[[t1 [E Hhit]]|[t1 [t2 [E [Hhit _]]]]]]; rewrite E.
  - split; [simpl; lia | discriminate].
  - split; [simpl; lia|]. intros t rest [= <- <-]. rewrite Hhit.
    split; [intros [t2 [=]] | discriminate].
  - split; [simpl; lia|]. intros t rest [= <- <-]. rewrite Hhit.
    split; [reflexivity | intros _; now exists t2].
Qed.

Lemma C2_witness :
  trades_on 0 sample_table2 = [sample_first; sample_reversal] /\
  ((exists t2, [sample_reversal] = [t2]) <-> StopHit sample_first = true).
Proof.
  assert (E : trades_on 0 sample_table2 = [sample_first; sample_reversal])
    by (vm_compute; reflexivity).
  split; [exact E|].
  exact (proj2 (proj2 (C2_trades_per_day sample_hist sample_pct sample_sl_pct
                         default_start_time default_end_time 0%Z)) _ _ E).
Defined.

(** C3. Whenever the table of the two-trade backtest holds a second record
    for a day, that record is entered at the exit price of the first, which
    is the first one's stop level, at the exit time of the first, in the
    opposite direction. *)
Theorem C3_reversal_entry (hist_df : list Candle) (pct : Q)
    (sl_pct : option Q) (start_time end_time day : Z) (t1 t2 : Trade)
    (rest : list Trade) :
  trades_on day
    (fst (backtest_intraday_open_breakout2 hist_df pct sl_pct
            start_time end_time)) = t1 :: t2 :: rest ->
  Entry t2 = Exit t1 /\
  Exit t1 = match Type_ t1 with
            | LONG => Entry t1 * (1 - normalize_sl pct sl_pct)
            | SHORT => Entry t1 * (1 + normalize_sl pct sl_pct)
            end /\
  EntryTime t2 = ExitTime t1 /\
  Type_ t2 = opposite (Type_ t1).
Proof.
  rewrite backtest2_table, emitted2_run.
  rewrite (run_days_trades_on (normalize_sl pct sl_pct)
             (day_trades2 pct (normalize_sl pct sl_pct)));
    [| reflexivity | intros; now apply day_trades2_managed with (pct := pct)].
  intros E.
  assert (Hm : managed (normalize_sl pct sl_pct) day
                 (session_of hist_df start_time end_time day) t1)
    by (apply (day_trades2_managed pct); rewrite E; now left).
  destruct (day_trades2_shape pct (normalize_sl pct sl_pct) day
              (session_of hist_df start_time end_time day))
    as [E'|[[a [E' _]]|[a [b [E' [Hhit [He [Ht Hty]]]]]]]];
    rewrite E' in E; try discriminate.
  injection E as <- <- _.
  repeat split; try assumption.
  apply (managed_stop _ _ _ _ Hm Hhit).
Qed.

Lemma C3_witness :
  trades_on 0 sample_table2 = [sample_first; sample_reversal] /\
  Entry sample_reversal = Exit sample_first /\
  Exit sample_first
  = match Type_ sample_first with
    | LONG => Entry sample_first * (1 - normalize_sl sample_pct sample_sl_pct)
    | SHORT => Entry sample_first * (1 + normalize_sl sample_pct sample_sl_pct)
    end /\
  EntryTime sample_reversal = ExitTime sample_first /\
  Type_ sample_reversal = opposite (Type_ sample_first).
Proof.
  assert (E : trades_on 0 sample_table2 = [sample_first; sample_reversal])
    by (vm_compute; reflexivity).
  split; [exact E|].
  exact (C3_reversal_entry sample_hist sample_pct sample_sl_pct
           default_start_time default_end_time 0%Z _ _ [] E).
Defined.

(** ** Scanning for the trigger and for the stop *)

Lemma find_trigger_skip (lt st sl_pct : Q) (pre rows : list Candle) :
  Forall (no_touch lt st) pre ->
  find_trigger lt st sl_pct (pre ++ rows) = find_trigger lt st sl_pct rows.
Proof.
  induction 1 as [|r pre [Hh Hl] _ IH]; simpl; [reflexivity|].
  destruct (Qle_bool lt (high r)) eqn:E1;
    [apply Qle_bool_iff in E1; contradiction|].
  destruct (Qle_bool (low r) st) eqn:E2;
    [apply Qle_bool_iff in E2; contradiction|].
  exact IH.
Qed.

Lemma find_trigger_long (lt st sl_pct : Q) (c : Candle) (post : list Candle) :
  lt <= high c ->
  find_trigger lt st sl_pct (c :: post)
  = Some (lt, time c, LONG, lt * (1 - sl_pct)).
Proof. intros H. simpl. now rewrite (proj2 (Qle_bool_iff _ _) H). Qed.




(** The first record of a day, once the trigger scan has found an entry. *)
Lemma day_trades_first (pct sl_pct : Q) (day : Z) (dd : list Candle)
    (entry : Q) (ts : Z) (ty : TradeType) (sl : Q) :
  find_trigger (long_trigger_of pct dd) (short_trigger_of pct dd) sl_pct dd
  = Some (entry, ts, ty, sl) ->
  exists first,
    day_trades pct sl_pct day dd = [close_trade day ty entry ts sl first dd] /\
    exists rest,
      day_trades2 pct sl_pct day dd
      = close_trade day ty entry ts sl first dd :: rest.
Proof.
  destruct dd as [|first r]; [discriminate|]. intros H. exists first.
  rewrite day_trades_unfold, day_trades2_unfold, H. split; [reflexivity|].
  cbv zeta. destruct (StopHit _); eexists; reflexivity.
Qed.

(** Both tables, restricted to one day, in terms of the loop bodies. *)
Lemma tables_on_day (hist_df : list Candle) (pct : Q) (sl_pct : option Q)
    (start_time end_time day : Z) :
  trades_on day (fst (backtest_intraday_open_breakout hist_df pct sl_pct
                        start_time end_time))
  = day_trades pct (normalize_sl pct sl_pct) day
      (session_of hist_df start_time end_time day) /\
  trades_on day (fst (backtest_intraday_open_breakout2 hist_df pct sl_pct
                        start_time end_time))
  = day_trades2 pct (normalize_sl pct sl_pct) day
      (session_of hist_df start_time end_time day).
Proof.
  rewrite backtest_table, backtest2_table, emitted_run, emitted2_run.
  split.
  - apply (run_days_trades_on (normalize_sl pct sl_pct));
      [reflexivity | intros; now apply day_trades_managed with (pct := pct)].
  - apply (run_days_trades_on (normalize_sl pct sl_pct));
      [reflexivity | intros; now apply day_trades2_managed with (pct := pct)].
Qed.

(** C7. When the first candle of a session that touches a trigger touches
    both, [high >= long_trigger] and [low <= short_trigger], the first record
    of that day in either table is LONG, entered at [long_trigger] on that
    candle. *)
Theorem C7_long_priority (hist_df : list Candle) (pct : Q)
    (sl_pct : option Q) (start_time end_time day : Z)
    (pre post : list Candle) (c : Candle) :
  session_of hist_df start_time end_time day = pre ++ c :: post ->
  Forall (no_touch
            (long_trigger_of pct (session_of hist_df start_time end_time day))
            (short_trigger_of pct (session_of hist_df start_time end_time day)))
         pre ->
  long_trigger_of pct (session_of hist_df start_time end_time day) <= high c ->
  low c <= short_trigger_of pct (session_of hist_df start_time end_time day) ->
  (exists t,
     trades_on day (fst (backtest_intraday_open_breakout hist_df pct sl_pct
                           start_time end_time)) = [t] /\
     Type_ t = LONG /\
     Entry t
     = long_trigger_of pct (session_of hist_df start_time end_time day) /\
     EntryTime t = time c) /\
  (exists t rest,
     trades_on day (fst (backtest_intraday_open_breakout2 hist_df pct sl_pct
                           start_time end_time)) = t :: rest /\
     Type_ t = LONG /\
     Entry t
     = long_trigger_of pct (session_of hist_df start_time end_time day) /\
     EntryTime t = time c).
Proof.
  destruct (tables_on_day hist_df pct sl_pct start_time end_time day)
    as [-> ->].
  set (dd := session_of hist_df start_time end_time day).
  intros Hdd Hpre Hlong _.
  assert (Hfind : find_trigger (long_trigger_of pct dd)
                    (short_trigger_of pct dd) (normalize_sl pct sl_pct) dd
                  = Some (long_trigger_of pct dd, time c, LONG,
                          long_trigger_of pct dd
                          * (1 - normalize_sl pct sl_pct))).
  { rewrite Hdd at 3. rewrite find_trigger_skip by exact Hpre.
    now apply find_trigger_long. }
  destruct (day_trades_first pct _ day dd _ _ _ _ Hfind)
    as [first [E1 [rest E2]]].
  rewrite E1, E2. split.
  - eexists. split; [reflexivity|]. now repeat split.
  - eexists. exists rest. split; [reflexivity|]. now repeat split.
Qed.

Lemma C7_witness :
  sample_day1
  = [mkCandle 87300 200 200.5 199.5 200.1]
    ++ mkCandle 87600 200.1 203 197 201
    :: [mkCandle 87900 201 201.5 200.5 201.2] /\
  long_trigger_of sample_pct sample_day1 <= 203 /\
  197 <= short_trigger_of sample_pct sample_day1 /\
  (exists t,
     trades_on 1 sample_table = [t] /\
     Type_ t = LONG /\ Entry t = long_trigger_of sample_pct sample_day1 /\
     EntryTime t = 87600%Z) /\
  (exists t rest,
     trades_on 1 sample_table2 = t :: rest /\
     Type_ t = LONG /\ Entry t = long_trigger_of sample_pct sample_day1 /\
     EntryTime t = 87600%Z).
Proof.
  assert (Hdd : sample_day1
                = [mkCandle 87300 200 200.5 199.5 200.1]
                  ++ mkCandle 87600 200.1 203 197 201
                  :: [mkCandle 87900 201 201.5 200.5 201.2])
    by (vm_compute; reflexivity).
  assert (Hl : long_trigger_of sample_pct sample_day1 <= 203)
    by (apply Qle_bool_imp_le; vm_compute; reflexivity).
  assert (Hs : 197 <= short_trigger_of sample_pct sample_day1)
    by (apply Qle_bool_imp_le; vm_compute; reflexivity).
  assert (Hpre : Forall (no_touch (long_trigger_of sample_pct sample_day1)
                                  (short_trigger_of sample_pct sample_day1))
                        [mkCandle 87300 200 200.5 199.5 200.1]).
  { repeat constructor; intros H; apply Qle_bool_iff in H;
      vm_compute in H; discriminate. }
  split; [exact Hdd|]. split; [exact Hl|]. split; [exact Hs|].
  exact (C7_long_priority sample_hist sample_pct sample_sl_pct
           default_start_time default_end_time 1%Z _ _ _ Hdd Hpre Hl Hs).
Defined.



(** ** The drawdown *)

Lemma Qminb_le_l (a b : Q) : Qminb a b <= a.
Proof.
  unfold Qminb. destruct (Qle_bool a b) eqn:E; [apply Qle_refl|].
  apply Qlt_le_weak, Qnot_le_lt. intros H.
  apply Qle_bool_iff in H. congruence.
Qed.

Lemma fold_min_le (r : list Q) (d : Q) : fold_left Qminb r d <= d.
Proof.
  revert d. induction r as [|x r IH]; intros d; simpl; [apply Qle_refl|].
  eapply Qle_trans; [apply IH | apply Qminb_le_l].
Qed.

Lemma fold_min_In (r : list Q) (d : Q) : In (fold_left Qminb r d) (d :: r).
Proof.
  revert d. induction r as [|x r IH]; intros d; simpl; [now left|].
  destruct (IH (Qminb d x)) as [H|H]; [|now right; right].
  rewrite <- H. unfold Qminb. destruct (Qle_bool d x); [now left|].
  right. now left.
Qed.

Lemma scan_max_sorted (cs : list Q) (a : Q) :
  Sorted Qle (a :: cs) -> scan Qmaxb a cs = cs.
Proof.
  revert a. induction cs as [|y cs IH]; intros a H; simpl; [reflexivity|].
  inversion H as [|? ? Hs Hhd]; subst. inversion Hhd as [|? ? Hay]; subst.
  assert (E : Qmaxb a y = y)
    by (unfold Qmaxb; now rewrite (proj2 (Qle_bool_iff _ _) Hay)).
  rewrite E. f_equal. now apply IH.
Qed.

Lemma sub_lists_same_zero (c : list Q) :
  Forall (fun d => d == 0) (sub_lists c c).
Proof.
  unfold sub_lists. induction c as [|x c IH]; simpl; constructor;
    [simpl; ring | exact IH].
Qed.

Lemma max_drawdown_le_0 (trades_df : list Trade) :
  Max_Drawdown (compute_metrics trades_df) <= 0.
Proof.
  unfold compute_metrics. cbn [Max_Drawdown].
  destruct (map PnL trades_df) as [|x r]; simpl; [apply Qle_refl|].
  eapply Qle_trans; [apply fold_min_le|].
  apply Qle_lteq. right. ring.
Qed.

Lemma max_drawdown_eq_0 (trades_df : list Trade) :
  Sorted Qle (cumsum (map PnL trades_df)) ->
  Max_Drawdown (compute_metrics trades_df) == 0.
Proof.
  unfold compute_metrics. cbn [Max_Drawdown]. intros Hs.
  assert (Hmax : cummax (cumsum (map PnL trades_df))
                 = cumsum (map PnL trades_df)).
  { destruct (cumsum (map PnL trades_df)) as [|x cs]; [reflexivity|].
    simpl. f_equal. now apply scan_max_sorted. }
  rewrite Hmax.
  pose proof (sub_lists_same_zero (cumsum (map PnL trades_df))) as Hz.
  destruct (sub_lists (cumsum (map PnL trades_df))
                      (cumsum (map PnL trades_df))) as [|d r];
    [reflexivity|].
  unfold list_min. rewrite Forall_forall in Hz. apply Hz, fold_min_In.
Qed.

(** The metrics of either backtest are the all-zero record on an empty
    table and are computed from the returned table otherwise. *)
Lemma backtest_metrics (hist_df : list Candle) (pct : Q) (sl_pct : option Q)
    (start_time end_time : Z) (r : list Trade * Metrics) :
  r = backtest_intraday_open_breakout hist_df pct sl_pct start_time end_time \/
  r = backtest_intraday_open_breakout2 hist_df pct sl_pct start_time end_time ->
  r = ([], zero_metrics) \/ snd r = compute_metrics (fst r).
Proof.
  intros [-> | ->].
  - unfold backtest_intraday_open_breakout.
    destruct (emitted _ _ _ _ _); [now left | now right].
  - unfold backtest_intraday_open_breakout2.
    destruct (emitted2 _ _ _ _ _); [now left | now right].
Qed.

(** C5. For every run of either backtest, [Max_Drawdown <= 0], and
    [Max_Drawdown] is 0 whenever the running sum of the PnL column of the
    returned table never decreases, the empty table included. *)
Theorem C5_max_drawdown_sign (hist_df : list Candle) (pct : Q)
    (sl_pct : option Q) (start_time end_time : Z)
    (r : list Trade * Metrics) :
  r = backtest_intraday_open_breakout hist_df pct sl_pct start_time end_time \/
  r = backtest_intraday_open_breakout2 hist_df pct sl_pct start_time end_time ->
  Max_Drawdown (snd r) <= 0 /\
  (Sorted Qle (cumsum (map PnL (fst r))) -> Max_Drawdown (snd r) == 0) /\
  (fst r = [] -> Max_Drawdown (snd r) = 0).
Proof.
  intros Hr. destruct (backtest_metrics _ _ _ _ _ _ Hr) as [-> | E].
  - simpl. split; [apply Qle_refl|]. split; reflexivity.
  - rewrite E. split; [apply max_drawdown_le_0|].
    split; [apply max_drawdown_eq_0|].
    intros ->. reflexivity.
Qed.

Lemma C5_witness :
  Sorted Qle (cumsum (map PnL (fst rising_run))) /\
  Max_Drawdown (snd rising_run) <= 0 /\ Max_Drawdown (snd rising_run) == 0.
Proof.
  assert (Hs : Sorted Qle (cumsum (map PnL (fst rising_run))))
    by (vm_compute; repeat constructor).
  split; [exact Hs|].
  destruct (C5_max_drawdown_sign rising_hist sample_pct sample_sl_pct
              default_start_time default_end_time rising_run
              (or_introl eq_refl))
    as [Hle [Hzero _]].
  split; [exact Hle | exact (Hzero Hs)].
Defined.

(** C6. On every input for which the loop over the days appends no trade,
    the empty input included, both backtests return the empty trade table
    and the metrics [Total_PnL = 0], [Max_Drawdown = 0], [Total_Trades = 0],
    [Win_Rate_pct = 0], [Avg_PnL = 0]. *)
Theorem C6_no_trades_zero_metrics (hist_df : list Candle) (pct : Q)
    (sl_pct : option Q) (start_time end_time : Z) :
  (emitted hist_df pct sl_pct start_time end_time = [] ->
   backtest_intraday_open_breakout hist_df pct sl_pct start_time end_time
   = ([], mkMetrics 0 0 0%Z 0 0)) /\
  (emitted2 hist_df pct sl_pct start_time end_time = [] ->
   backtest_intraday_open_breakout2 hist_df pct sl_pct start_time end_time
   = ([], mkMetrics 0 0 0%Z 0 0)) /\
  backtest_intraday_open_breakout [] pct sl_pct start_time end_time
  = ([], mkMetrics 0 0 0%Z 0 0) /\
  backtest_intraday_open_breakout2 [] pct sl_pct start_time end_time
  = ([], mkMetrics 0 0 0%Z 0 0).
Proof.
  unfold backtest_intraday_open_breakout, backtest_intraday_open_breakout2.
  split; [now intros -> |]. split; [now intros -> |]. split; reflexivity.
Qed.

Lemma C6_witness :
  emitted quiet_hist sample_pct sample_sl_pct
    default_start_time default_end_time = [] /\
  emitted2 quiet_hist sample_pct sample_sl_pct
    default_start_time default_end_time = [] /\
  backtest_intraday_open_breakout quiet_hist sample_pct sample_sl_pct
    default_start_time default_end_time = ([], mkMetrics 0 0 0%Z 0 0) /\
  backtest_intraday_open_breakout2 quiet_hist sample_pct sample_sl_pct
    default_start_time default_end_time = ([], mkMetrics 0 0 0%Z 0 0).
Proof.
  assert (E1 : emitted quiet_hist sample_pct sample_sl_pct
                 default_start_time default_end_time = [])
    by (vm_compute; reflexivity).
  assert (E2 : emitted2 quiet_hist sample_pct sample_sl_pct
                 default_start_time default_end_time = [])
    by (vm_compute; reflexivity).
  split; [exact E1|]. split; [exact E2|].
  pose proof (C6_no_trades_zero_metrics quiet_hist sample_pct sample_sl_pct
                default_start_time default_end_time) as [H1 [H2 _]].
  split; [exact (H1 E1) | exact (H2 E2)].
Defined.

Open Scope Z_scope.

(** C9. In both backtests the returned trade table is in ascending order of
    [EntryTime] over the whole run, and it lists the records in the order in
    which the loop over the days appended them, so records with equal entry
    times keep their order of emission. *)
Theorem C9_table_sorted_by_entry_time (hist_df : list Candle) (pct : Q)
    (sl_pct : option Q) (start_time end_time : Z) :
  StronglySorted (fun a b => EntryTime a <= EntryTime b)
    (fst (backtest_intraday_open_breakout hist_df pct sl_pct
            start_time end_time)) /\
  StronglySorted (fun a b => EntryTime a <= EntryTime b)
    (fst (backtest_intraday_open_breakout2 hist_df pct sl_pct
            start_time end_time)) /\
  fst (backtest_intraday_open_breakout hist_df pct sl_pct start_time end_time)
  = emitted hist_df pct sl_pct start_time end_time /\
  fst (backtest_intraday_open_breakout2 hist_df pct sl_pct start_time end_time)
  = emitted2 hist_df pct sl_pct start_time end_time.
Proof.
  rewrite backtest_table, backtest2_table.
  split; [|split; [|split; reflexivity]].
  - rewrite emitted_run.
    apply (run_days_entry_sorted (normalize_sl pct sl_pct)).
    + intros. now apply day_trades_managed with (pct := pct).
    + intros. apply day_trades_entry_sorted.
  - rewrite emitted2_run.
    apply (run_days_entry_sorted (normalize_sl pct sl_pct)).
    + intros. now apply day_trades2_managed with (pct := pct).
    + intros. now apply day_trades2_entry_sorted.
Qed.

(** C10. Every record of either table has [ExitTime >= EntryTime]; both
    timestamps fall on the calendar day of the record and inside the
    time-of-day window, which is the interval from [start_time] to [end_time]
    when [start_time <= end_time]; and a record entered at the time of the
    last candle of its session has [ExitTime = EntryTime]. *)
Theorem C10_trade_times_in_session (hist_df : list Candle) (pct : Q)
    (sl_pct : option Q) (start_time end_time : Z) (t : Trade) :
  In t (fst (backtest_intraday_open_breakout hist_df pct sl_pct
                                             start_time end_time)) \/
  In t (fst (backtest_intraday_open_breakout2 hist_df pct sl_pct
                                              start_time end_time)) ->
  EntryTime t <= ExitTime t /\
  date_of (EntryTime t) = Date t /\ date_of (ExitTime t) = Date t /\
  in_window start_time end_time (time_of_day (EntryTime t)) = true /\
  in_window start_time end_time (time_of_day (ExitTime t)) = true /\
  (start_time <= end_time ->
   start_time <= time_of_day (EntryTime t) <= end_time /\
   start_time <= time_of_day (ExitTime t) <= end_time) /\
  (forall pre lastc,
     session_of hist_df start_time end_time (Date t) = pre ++ [lastc] ->
     EntryTime t = time lastc -> ExitTime t = EntryTime t).
Proof.
  intros Hin. apply table_managed in Hin.
  pose proof (session_of_sorted hist_df start_time end_time (Date t)) as Hs.
  destruct (managed_times _ _ _ _ Hs Hin)
    as [Hle [[c1 [Hc1 Ht1]] [c2 [Hc2 Ht2]]]].
  pose proof Hc2 as Hc2'.
  apply session_of_In in Hc1, Hc2. unfold trade_date in Hc1, Hc2.
  rewrite Ht1 in Hc1. rewrite Ht2 in Hc2.
  destruct Hc1 as [_ [Hd1 Hw1]]. destruct Hc2 as [_ [Hd2 Hw2]].
  repeat (split; [assumption|]). split.
  - intros Hse. unfold in_window in Hw1, Hw2.
    rewrite (proj2 (Z.leb_le _ _) Hse) in Hw1, Hw2.
    apply andb_true_iff in Hw1, Hw2.
    rewrite !Z.leb_le in Hw1, Hw2. lia.
  - intros pre lastc E Hlast.
    assert (time c2 <= time lastc).
    { rewrite <- (last_snoc pre lastc lastc), <- E.
      now apply sorted_le_last. }
    lia.
Qed.

Lemma C10_witness :
  (In sample_last_entry sample_table \/ In sample_last_entry sample_table2) /\
  default_start_time <= default_end_time /\
  session_of sample_hist default_start_time default_end_time
             (Date sample_last_entry)
  = [mkCandle 173700 50 50.2 49.8 50.1]
    ++ [mkCandle 174000 50.1 50.3 49.2 49.4] /\
  EntryTime sample_last_entry = 174000 /\
  ExitTime sample_last_entry = EntryTime sample_last_entry /\
  default_start_time <= time_of_day (EntryTime sample_last_entry)
                     <= default_end_time.
Proof.
  assert (Hin : In sample_last_entry sample_table \/
                In sample_last_entry sample_table2)
    by (right; vm_compute; do 4 right; left; reflexivity).
  assert (Hse : default_start_time <= default_end_time)
    by (vm_compute; discriminate).
  assert (E : session_of sample_hist default_start_time default_end_time
                (Date sample_last_entry)
              = [mkCandle 173700 50 50.2 49.8 50.1]
                ++ [mkCandle 174000 50.1 50.3 49.2 49.4])
    by (vm_compute; reflexivity).
  assert (Ht : EntryTime sample_last_entry = 174000)
    by (vm_compute; reflexivity).
  split; [exact Hin|]. split; [exact Hse|]. split; [exact E|].
  split; [exact Ht|].
  destruct (C10_trade_times_in_session sample_hist sample_pct sample_sl_pct
              default_start_time default_end_time sample_last_entry Hin)
    as [_ [_ [_ [_ [_ [Hwin Hlast]]]]]].
  split; [exact (Hlast _ _ E Ht) | exact (proj1 (Hwin Hse))].
Defined.

(** ** The date-range filter *)

Lemma combine_fst {A B : Type} (l1 : list A) (l2 : list B) :
  length l1 = length l2 -> map fst (combine l1 l2) = l1.
Proof.
  revert l2. induction l1 as [|a l1 IH]; intros [|b l2] H; simpl in *;
    try discriminate; [reflexivity|].
  f_equal. apply IH. lia.
Qed.

Lemma combine_snd {A B : Type} (l1 : list A) (l2 : list B) :
  length l1 = length l2 -> map snd (combine l1 l2) = l2.
Proof.
  revert l2. induction l1 as [|a l1 IH]; intros [|b l2] H; simpl in *;
    try discriminate; [reflexivity|].
  f_equal. apply IH. lia.
Qed.

Lemma reset_index_rows (rows : list Candle) :
  map snd (reset_index rows) = rows.
Proof.
  unfold reset_index. apply combine_snd.
  now rewrite length_map, length_seq.
Qed.

Lemma reset_index_labels (rows : list Candle) :
  map fst (reset_index rows)
  = map Z.of_nat (seq 0 (length (reset_index rows))).
Proof.
  assert (H : length (map Z.of_nat (seq 0 (length rows))) = length rows)
    by now rewrite length_map, length_seq.
  unfold reset_index. rewrite combine_fst by exact H.
  now rewrite length_combine, H, Nat.min_id.
Qed.

Lemma filter_map_snd {A B : Type} (p : B -> bool) (l : list (A * B)) :
  map snd (filter (fun r => p (snd r)) l) = filter p (map snd l).
Proof.
  induction l as [|r l IH]; simpl; [reflexivity|].
  destruct (p (snd r)); simpl; now rewrite IH.
Qed.

Lemma midnight_le (day ts : Z) : midnight day <= ts <-> day <= date_of ts.
Proof.
  unfold midnight, date_of, day_seconds.
  Z.to_euclidean_division_equations. lia.
Qed.

Lemma le_midnight (day ts : Z) :
  ts <= midnight day <-> date_of ts < day \/ ts = midnight day.
Proof.
  unfold midnight, date_of, day_seconds.
  Z.to_euclidean_division_equations. lia.
Qed.

(** C8, as the code has it.  [filter_by_date] returns, in table order and
    with the index renumbered from 0, exactly the rows whose time lies
    between midnight of [start_date] and midnight of [end_date], both
    included: every candle of [start_date] and of the days before [end_date],
    and of [end_date] itself only a candle at 00:00:00. *)
Theorem C8_filter_by_date_bounds (df : Frame) (start_date end_date : Z) :
  map snd (filter_by_date df start_date end_date)
  = filter (fun c => (midnight start_date <=? time c)
                     && (time c <=? midnight end_date))
           (map snd df) /\
  map fst (filter_by_date df start_date end_date)
  = map Z.of_nat
        (seq 0 (length (filter_by_date df start_date end_date))) /\
  (forall c,
     In c (map snd (filter_by_date df start_date end_date)) <->
     In c (map snd df) /\ start_date <= trade_date c /\
     (trade_date c < end_date \/ time c = midnight end_date)).
Proof.
  assert (Hrows : map snd (filter_by_date df start_date end_date)
                  = filter (fun c => (midnight start_date <=? time c)
                                     && (time c <=? midnight end_date))
                           (map snd df)).
  { unfold filter_by_date. rewrite reset_index_rows.
    apply (filter_map_snd
             (fun c => (midnight start_date <=? time c)
                       && (time c <=? midnight end_date))). }
  split; [exact Hrows|]. split; [apply reset_index_labels|].
  intros c. rewrite Hrows, filter_In, andb_true_iff, !Z.leb_le.
  unfold trade_date. rewrite midnight_le, le_midnight. tauto.
Qed.

Lemma C8_witness :
  map snd (filter_by_date sample_frame 0 1)
  = [mkCandle 86100 100 100.5 99.5 100.2;
     mkCandle 86400 100.2 100.6 100 100.4] /\
  map fst (filter_by_date sample_frame 0 1) = [0; 1].
Proof.
  destruct (C8_filter_by_date_bounds sample_frame 0 1) as [Hrows [Hidx _]].
  split.
  - rewrite Hrows. vm_compute. reflexivity.
  - rewrite Hidx. vm_compute. reflexivity.
Defined.

(** The wording of C8 fails on the code: with [start_date = 0 <= 1 =
    end_date], the candle at 00:05 of day 1 lies on the boundary date but is
    not returned, so the result differs from the closed range of dates. *)
Lemma C8_counterexample :
  0 <= 1 /\
  In (mkCandle 86700 100.4 100.8 100.1 100.3) (map snd sample_frame) /\
  0 <= trade_date (mkCandle 86700 100.4 100.8 100.1 100.3) <= 1 /\
  ~ In (mkCandle 86700 100.4 100.8 100.1 100.3)
       (map snd (filter_by_date sample_frame 0 1)) /\
  filter_by_date sample_frame 0 1 <> filter_by_date_spec sample_frame 0 1.
Proof.
  split; [lia|]. split; [simpl; tauto|].
  split; [vm_compute; split; discriminate|]. split.
  - vm_compute. intros [H|[H|[]]]; discriminate H.
  - vm_compute. discriminate.
Qed.

(** * Further properties of the simulator *)

Open Scope Q_scope.

Lemma find_trigger_None (lt st sl_pct : Q) (rows : list Candle) :
  find_trigger lt st sl_pct rows = None <-> Forall (no_touch lt st) rows.
Proof.
  induction rows as [|row rest IH]; simpl.
  - split; [constructor | reflexivity].
  - destruct (Qle_bool lt (high row)) eqn:E1.
    + split; [discriminate|]. intros H. inversion H as [|? ? [Hh _] _]; subst.
      apply Qle_bool_iff in E1. contradiction.
    + destruct (Qle_bool (low row) st) eqn:E2.
      * split; [discriminate|]. intros H.
        inversion H as [|? ? [_ Hl] _]; subst.
        apply Qle_bool_iff in E2. contradiction.
      * rewrite IH. split.
        -- intros H. constructor; [|exact H]. split; intros Hc;
             apply Qle_bool_iff in Hc; congruence.
        -- intros H. now inversion H.
Qed.

Lemma find_trigger_split (lt st sl_pct : Q) (rows : list Candle)
    (entry : Q) (ts : Z) (ty : TradeType) (sl : Q) :
  find_trigger lt st sl_pct rows = Some (entry, ts, ty, sl) ->
  exists pre c post,
    rows = pre ++ c :: post /\ Forall (no_touch lt st) pre /\ ts = time c /\
    ((lt <= high c /\ ty = LONG /\ entry = lt) \/
     (~ lt <= high c /\ low c <= st /\ ty = SHORT /\ entry = st)).
Proof.
  induction rows as [|row rest IH]; simpl; [discriminate|].
  destruct (Qle_bool lt (high row)) eqn:E1.
  - intros [= <- <- <- <-]. exists [], row, rest.
    split; [reflexivity|]. split; [constructor|]. split; [reflexivity|].
    left. apply Qle_bool_iff in E1. now repeat split.
  - assert (Hn : ~ lt <= high row)
      by (intros Hc; apply Qle_bool_iff in Hc; congruence).
    destruct (Qle_bool (low row) st) eqn:E2.
    + intros [= <- <- <- <-]. exists [], row, rest.
      split; [reflexivity|]. split; [constructor|]. split; [reflexivity|].
      right. apply Qle_bool_iff in E2. now repeat split.
    + intros H. destruct (IH H) as [pre [c [post [-> [Hpre Hrest]]]]].
      exists (row :: pre), c, post. split; [reflexivity|].
      split; [|exact Hrest]. constructor; [|exact Hpre].
      split; [exact Hn|]. intros Hc. apply Qle_bool_iff in Hc. congruence.
Qed.

Lemma day_trades_nil_iff (pct sl_pct : Q) (day : Z) (dd : list Candle) :
  (day_trades pct sl_pct day dd = [] <->
   Forall (no_touch (long_trigger_of pct dd) (short_trigger_of pct dd)) dd) /\
  (day_trades2 pct sl_pct day dd = [] <->
   Forall (no_touch (long_trigger_of pct dd) (short_trigger_of pct dd)) dd).
Proof.
  destruct dd as [|first rest].
  - split; split; intros _; constructor || reflexivity.
  - rewrite day_trades_unfold, day_trades2_unfold.
    rewrite <- (find_trigger_None _ _ sl_pct).
    destruct (find_trigger _ _ sl_pct (first :: rest))
      as [[[[entry ts] ty] sl]|]; [|split; split; intros _; reflexivity].
    cbv zeta. destruct (StopHit _); split; split; discriminate.
Qed.

(** X1. A day has no record in the table, in either backtest, exactly when
    no candle of its session touches a trigger: no [high] reaches
    [long_trigger] and no [low] reaches [short_trigger]. *)
Theorem X1_no_trade_iff_no_touch (hist_df : list Candle) (pct : Q)
    (sl_pct : option Q) (start_time end_time day : Z) :
  (trades_on day (fst (backtest_intraday_open_breakout hist_df pct sl_pct
                         start_time end_time)) = [] <->
   Forall (no_touch
             (long_trigger_of pct (session_of hist_df start_time end_time day))
             (short_trigger_of pct (session_of hist_df start_time end_time day)))
          (session_of hist_df start_time end_time day)) /\
  (trades_on day (fst (backtest_intraday_open_breakout2 hist_df pct sl_pct
                         start_time end_time)) = [] <->
   Forall (no_touch
             (long_trigger_of pct (session_of hist_df start_time end_time day))
             (short_trigger_of pct (session_of hist_df start_time end_time day)))
          (session_of hist_df start_time end_time day)).
Proof.
  destruct (tables_on_day hist_df pct sl_pct start_time end_time day)
    as [-> ->].
  apply day_trades_nil_iff.
Qed.

(** X2. The first record of a day, in either table, is entered on the first
    candle of the session that touches a trigger: LONG at [long_trigger] when
    that candle's high reaches it, and SHORT at [short_trigger] only when the
    high does not reach [long_trigger] and the low reaches [short_trigger]. *)
Theorem X2_entry_on_first_touch (hist_df : list Candle) (pct : Q)
    (sl_pct : option Q) (start_time end_time day : Z) (table : list Trade)
    (t : Trade) (rest : list Trade) :
  table = fst (backtest_intraday_open_breakout hist_df pct sl_pct
                 start_time end_time) \/
  table = fst (backtest_intraday_open_breakout2 hist_df pct sl_pct
                 start_time end_time) ->
  trades_on day table = t :: rest ->
  exists pre c post,
    session_of hist_df start_time end_time day = pre ++ c :: post /\
    Forall (no_touch
              (long_trigger_of pct (session_of hist_df start_time end_time day))
              (short_trigger_of pct
                 (session_of hist_df start_time end_time day))) pre /\
    EntryTime t = time c /\
    ((long_trigger_of pct (session_of hist_df start_time end_time day)
      <= high c /\
      Type_ t = LONG /\
      Entry t
      = long_trigger_of pct (session_of hist_df start_time end_time day)) \/
     (~ long_trigger_of pct (session_of hist_df start_time end_time day)
        <= high c /\
      low c
      <= short_trigger_of pct (session_of hist_df start_time end_time day) /\
      Type_ t = SHORT /\
      Entry t
      = short_trigger_of pct (session_of hist_df start_time end_time day))).
Proof.
  intros Htable.
  destruct (tables_on_day hist_df pct sl_pct start_time end_time day)
    as [T1 T2].
  set (dd := session_of hist_df start_time end_time day) in *.
  intros E.
  destruct (find_trigger (long_trigger_of pct dd) (short_trigger_of pct dd)
              (normalize_sl pct sl_pct) dd)
    as [[[[entry ts] ty] sl]|] eqn:Hfind.
  - destruct (day_trades_first pct _ day dd _ _ _ _ Hfind)
      as [first [E1 [rest2 E2]]].
    assert (Ht : t = close_trade day ty entry ts sl first dd).
    { destruct Htable as [-> | ->].
      - rewrite T1, E1 in E. now injection E as <-.
      - rewrite T2, E2 in E. now injection E as <-. }
    destruct (find_trigger_split _ _ _ _ _ _ _ _ Hfind)
      as [pre [c [post [Hdd [Hpre [Hts Hcase]]]]]].
    exists pre, c, post. rewrite Ht.
    split; [exact Hdd|]. split; [exact Hpre|]. split; [exact Hts|].
    destruct Hcase as [[H1 [-> ->]] | [H1 [H2 [-> ->]]]];
      [left | right]; now repeat split.
  - exfalso. apply find_trigger_None in Hfind.
    destruct (day_trades_nil_iff pct (normalize_sl pct sl_pct) day dd)
      as [N1 N2].
    destruct Htable as [-> | ->].
    + rewrite T1, (proj2 N1 Hfind) in E. discriminate.
    + rewrite T2, (proj2 N2 Hfind) in E. discriminate.
Qed.

Lemma X2_witness :
  trades_on 2 sample_table2 = [sample_last_entry] /\
  exists pre c post,
    session_of sample_hist default_start_time default_end_time 2
    = pre ++ c :: post /\
    EntryTime sample_last_entry = time c /\
    Type_ sample_last_entry = SHORT /\
    low c
    <= short_trigger_of sample_pct
         (session_of sample_hist default_start_time default_end_time 2).
Proof.
  assert (E : trades_on 2 sample_table2 = [sample_last_entry])
    by (vm_compute; reflexivity).
  split; [exact E|].
  destruct (X2_entry_on_first_touch sample_hist sample_pct sample_sl_pct
              default_start_time default_end_time 2%Z sample_table2
              sample_last_entry [] (or_intror eq_refl) E)
    as [pre [c [post [Hdd [_ [Ht Hcase]]]]]].
  exists pre, c, post. split; [exact Hdd|]. split; [exact Ht|].
  destruct Hcase as [[_ [Hty _]] | [_ [Hl [Hty _]]]].
  - exfalso. vm_compute in Hty. discriminate Hty.
  - split; [exact Hty | exact Hl].
Defined.

(** X3. The two backtests agree on the first trade of every day: the
    single-trade table, restricted to a day, is the first record of that day
    in the two-trade table. *)
Theorem X3_single_is_first_of_two (hist_df : list Candle) (pct : Q)
    (sl_pct : option Q) (start_time end_time day : Z) :
  trades_on day (fst (backtest_intraday_open_breakout hist_df pct sl_pct
                        start_time end_time))
  = firstn 1 (trades_on day
                (fst (backtest_intraday_open_breakout2 hist_df pct sl_pct
                        start_time end_time))).
Proof.
  destruct (tables_on_day hist_df pct sl_pct start_time end_time day)
    as [-> ->].
  destruct (session_of hist_df start_time end_time day) as [|first rest];
    [reflexivity|].
  rewrite day_trades_unfold, day_trades2_unfold.
  destruct (find_trigger _ _ _ _) as [[[[entry ts] ty] sl]|]; [|reflexivity].
  cbv zeta. now destruct (StopHit _).
Qed.

(** ** The stop scan *)

Lemma find_stop_None (ty : TradeType) (sl : Q) (after : list Candle) :
  find_stop ty sl after = None <->
  Forall (fun c => ~ stop_touch ty sl c) after.
Proof.
  induction after as [|row rest IH]; simpl.
  - split; [constructor | reflexivity].
  - destruct ty; simpl.
    + destruct (Qle_bool (low row) sl) eqn:E.
      * split; [discriminate|]. intros H. inversion H as [|? ? Hn _]; subst.
        apply Qle_bool_iff in E. contradiction.
      * rewrite IH. split; [|intros H; now inversion H].
        intros H. constructor; [|exact H].
        intros Hc. apply Qle_bool_iff in Hc. congruence.
    + destruct (Qle_bool sl (high row)) eqn:E.
      * split; [discriminate|]. intros H. inversion H as [|? ? Hn _]; subst.
        apply Qle_bool_iff in E. contradiction.
      * rewrite IH. split; [|intros H; now inversion H].
        intros H. constructor; [|exact H].
        intros Hc. apply Qle_bool_iff in Hc. congruence.
Qed.

Lemma find_stop_split (ty : TradeType) (sl : Q) (after : list Candle)
    (p : Q) (ts : Z) :
  find_stop ty sl after = Some (p, ts) ->
  exists pre c post,
    after = pre ++ c :: post /\
    Forall (fun r => ~ stop_touch ty sl r) pre /\
    ts = time c /\ stop_touch ty sl c.
Proof.
  induction after as [|row rest IH]; simpl; [discriminate|].
  assert (Hrec : ~ stop_touch ty sl row ->
                 find_stop ty sl rest = Some (p, ts) ->
                 exists pre c post,
                   row :: rest = pre ++ c :: post /\
                   Forall (fun r => ~ stop_touch ty sl r) pre /\
                   ts = time c /\ stop_touch ty sl c).
  { intros Hn H. destruct (IH H) as [pre [c [post [-> [Hpre Hc]]]]].
    exists (row :: pre), c, post. split; [reflexivity|].
    split; [now constructor | exact Hc]. }
  destruct ty; simpl in *.
  - destruct (Qle_bool (low row) sl) eqn:E.
    + intros [= <- <-]. exists [], row, rest. apply Qle_bool_iff in E.
      split; [reflexivity|]. split; [constructor|]. now split.
    + apply Hrec. intros Hc. apply Qle_bool_iff in Hc. congruence.
  - destruct (Qle_bool sl (high row)) eqn:E.
    + intros [= <- <-]. exists [], row, rest. apply Qle_bool_iff in E.
      split; [reflexivity|]. split; [constructor|]. now split.
    + apply Hrec. intros Hc. apply Qle_bool_iff in Hc. congruence.
Qed.

Lemma close_trade_find_stop (day : Z) (ty : TradeType) (entry : Q) (ts : Z)
    (sl : Q) (first : Candle) (dd : list Candle) :
  (StopHit (close_trade day ty entry ts sl first dd) = true ->
   find_stop ty sl (iloc_from1 (loc_from ts dd))
   = Some (Exit (close_trade day ty entry ts sl first dd),
           ExitTime (close_trade day ty entry ts sl first dd))) /\
  (StopHit (close_trade day ty entry ts sl first dd) = false ->
   find_stop ty sl (iloc_from1 (loc_from ts dd)) = None).
Proof.
  unfold close_trade, manage_exit. cbn [StopHit Exit ExitTime].
  destruct (find_stop ty sl (iloc_from1 (loc_from ts dd))) as [[p e]|];
    cbn [fst snd]; split; intros H; try discriminate; reflexivity.
Qed.

Lemma managed_find_stop (sl_pct : Q) (day : Z) (dd : list Candle) (t : Trade) :
  managed sl_pct day dd t ->
  (StopHit t = true ->
   find_stop (Type_ t) (stop_of sl_pct t)
             (iloc_from1 (loc_from (EntryTime t) dd))
   = Some (Exit t, ExitTime t)) /\
  (StopHit t = false ->
   find_stop (Type_ t) (stop_of sl_pct t)
             (iloc_from1 (loc_from (EntryTime t) dd)) = None).
Proof.
  intros [first [rest [_ [E _]]]]. unfold stop_of.
  pose proof (close_trade_find_stop day (Type_ t) (Entry t) (EntryTime t)
                (stop_level sl_pct (Type_ t) (Entry t)) first dd) as H.
  now rewrite <- E in H.
Qed.

Open Scope Z_scope.

Lemma dropwhile_sorted {A : Type} (R : A -> A -> Prop) (p : A -> bool)
    (l : list A) :
  StronglySorted R l -> StronglySorted R (dropwhile p l).
Proof.
  induction 1 as [|x r Hr IH Hx]; simpl; [constructor|].
  destruct (p x); [exact IH | now constructor].
Qed.

Lemma tl_sorted {A : Type} (R : A -> A -> Prop) (l : list A) :
  StronglySorted R l -> StronglySorted R (tl l).
Proof. destruct 1; simpl; [constructor | assumption]. Qed.

(** Every row later than the entry time is scanned for the stop. *)
Lemma after_contains_later (ts : Z) (dd : list Candle) (c : Candle) :
  StronglySorted (fun a b => time a <= time b) dd ->
  (exists c0, In c0 dd /\ time c0 = ts) ->
  In c dd -> ts < time c ->
  In c (iloc_from1 (loc_from ts dd)).
Proof.
  unfold iloc_from1, loc_from.
  induction 1 as [|x r Hr IH Hx]; simpl; [intros _ []|].
  intros [c0 [Hc0 Ht0]] Hc Hlt.
  rewrite Forall_forall in Hx.
  destruct (time x <? ts) eqn:E.
  - apply Z.ltb_lt in E. apply IH; [| |exact Hlt].
    + exists c0. destruct Hc0 as [->|Hc0]; [lia | now split].
    + destruct Hc as [->|Hc]; [lia | exact Hc].
  - apply Z.ltb_ge in E. simpl.
    destruct Hc as [->|Hc]; [|exact Hc].
    destruct Hc0 as [->|Hc0]; [lia|]. specialize (Hx c0 Hc0). lia.
Qed.

Lemma sorted_app_before (pre post : list Candle) (c c' : Candle) :
  StronglySorted (fun a b => time a <= time b) (pre ++ c :: post) ->
  In c' (pre ++ c :: post) -> time c' < time c -> In c' pre.
Proof.
  induction pre as [|x pre IH]; simpl; intros Hs Hin Hlt.
  - inversion Hs as [|? ? _ Hall]; subst. rewrite Forall_forall in Hall.
    destruct Hin as [->|Hin]; [lia|]. specialize (Hall c' Hin). lia.
  - inversion Hs as [|? ? Hs' _]; subst.
    destruct Hin as [->|Hin]; [now left|]. right. now apply IH.
Qed.

(** X4. The exit of every record is decided by the first touch of its stop
    after the entry.  With [StopHit = false], no candle of the session later
    than the entry time touches the stop.  With [StopHit = true], a candle of
    the session at the exit time touches the stop, and no candle strictly
    between entry time and exit time does. *)
Theorem X4_stop_is_first_touch (hist_df : list Candle) (pct : Q)
    (sl_pct : option Q) (start_time end_time : Z) (t : Trade) :
  In t (fst (backtest_intraday_open_breakout hist_df pct sl_pct
                                             start_time end_time)) \/
  In t (fst (backtest_intraday_open_breakout2 hist_df pct sl_pct
                                              start_time end_time)) ->
  (StopHit t = false ->
   forall c, In c (session_of hist_df start_time end_time (Date t)) ->
             EntryTime t < time c ->
             ~ stop_touch (Type_ t) (stop_of (normalize_sl pct sl_pct) t) c) /\
  (StopHit t = true ->
   (exists c, In c (session_of hist_df start_time end_time (Date t)) /\
              time c = ExitTime t /\
              stop_touch (Type_ t) (stop_of (normalize_sl pct sl_pct) t) c) /\
   forall c, In c (session_of hist_df start_time end_time (Date t)) ->
             EntryTime t < time c < ExitTime t ->
             ~ stop_touch (Type_ t) (stop_of (normalize_sl pct sl_pct) t) c).
Proof.
  intros Hin. apply table_managed in Hin.
  pose proof (session_of_sorted hist_df start_time end_time (Date t)) as Hs.
  set (dd := session_of hist_df start_time end_time (Date t)) in *.
  destruct (managed_find_stop _ _ _ _ Hin) as [Hhit Hmiss].
  pose proof Hin as [_ [_ [_ [_ Hentry]]]].
  split; intros Hflag.
  - intros c Hc Hlt. specialize (Hmiss Hflag).
    apply find_stop_None in Hmiss. rewrite Forall_forall in Hmiss.
    apply Hmiss. now apply after_contains_later.
  - specialize (Hhit Hflag).
    destruct (find_stop_split _ _ _ _ _ Hhit)
      as [pre [c [post [Hafter [Hpre [Hts Htouch]]]]]].
    split.
    + exists c. split; [|now split].
      apply (after_In (EntryTime t)). rewrite Hafter.
      apply in_or_app. right. now left.
    + intros c' Hc' [Hlo Hhi]. rewrite Forall_forall in Hpre. apply Hpre.
      apply (sorted_app_before pre post c c').
      * rewrite <- Hafter. unfold iloc_from1, loc_from.
        now apply tl_sorted, dropwhile_sorted.
      * rewrite <- Hafter. now apply after_contains_later.
      * now rewrite <- Hts.
Qed.

Lemma X4_witness :
  (In sample_first sample_table \/ In sample_first sample_table2) /\
  StopHit sample_first = true /\
  exists c,
    In c (session_of sample_hist default_start_time default_end_time
            (Date sample_first)) /\
    time c = ExitTime sample_first /\
    stop_touch (Type_ sample_first)
               (stop_of (normalize_sl sample_pct sample_sl_pct) sample_first) c.
Proof.
  assert (Hin : In sample_first sample_table \/ In sample_first sample_table2)
    by (left; vm_compute; left; reflexivity).
  assert (Hhit : StopHit sample_first = true) by (vm_compute; reflexivity).
  split; [exact Hin|]. split; [exact Hhit|].
  exact (proj1 (proj2 (X4_stop_is_first_touch sample_hist sample_pct
                         sample_sl_pct default_start_time default_end_time
                         sample_first Hin) Hhit)).
Defined.

(** ** Tables with distinct timestamps *)

Lemma sorted_NoDup_strict (l : list Candle) :
  StronglySorted (fun a b => time a <= time b) l ->
  NoDup (map time l) ->
  StronglySorted (fun a b => time a < time b) l.
Proof.
  induction 1 as [|x r Hr IH Hx]; simpl; intros Hnd; [constructor|].
  inversion Hnd as [|? ? Hnotin Hnd']; subst.
  constructor; [now apply IH|].
  rewrite Forall_forall in Hx |- *. intros y Hy.
  specialize (Hx y Hy).
  assert (time x <> time y)
    by (intros E; apply Hnotin; rewrite E; now apply in_map).
  lia.
Qed.

Lemma session_of_strict (hist_df : list Candle) (start_time end_time day : Z) :
  NoDup (map time hist_df) ->
  StronglySorted (fun a b => time a < time b)
                 (session_of hist_df start_time end_time day).
Proof.
  intros Hnd. unfold session_of, between_time.
  do 2 apply StronglySorted_filter.
  apply sorted_NoDup_strict; [apply sort_index_sorted|].
  eapply Permutation_NoDup; [|exact Hnd].
  apply Permutation_map, Permutation_sym. unfold sort_index.
  apply stable_sort_perm.
Qed.

Lemma after_strictly_later (ts : Z) (dd : list Candle) (c : Candle) :
  StronglySorted (fun a b => time a < time b) dd ->
  In c (iloc_from1 (loc_from ts dd)) -> ts < time c.
Proof.
  unfold iloc_from1, loc_from.
  induction 1 as [|x r Hr IH Hx]; simpl; [intros []|].
  destruct (time x <? ts) eqn:E; [exact IH|].
  apply Z.ltb_ge in E. simpl. intros Hc.
  rewrite Forall_forall in Hx. specialize (Hx c Hc). lia.
Qed.

(** X5. When the timestamps of the input table are pairwise distinct, the
    candle that fires an entry is never the one that stops it: a record with
    [StopHit = true] has [ExitTime > EntryTime], and a record whose exit time
    equals its entry time was closed at the end of the session, having been
    entered on the session's last candle. *)
Theorem X5_entry_bar_never_stops (hist_df : list Candle) (pct : Q)
    (sl_pct : option Q) (start_time end_time : Z) (t : Trade) :
  NoDup (map time hist_df) ->
  In t (fst (backtest_intraday_open_breakout hist_df pct sl_pct
                                             start_time end_time)) \/
  In t (fst (backtest_intraday_open_breakout2 hist_df pct sl_pct
                                              start_time end_time)) ->
  (StopHit t = true -> EntryTime t < ExitTime t) /\
  (ExitTime t = EntryTime t ->
   StopHit t = false /\
   exists pre lastc,
     session_of hist_df start_time end_time (Date t) = pre ++ [lastc] /\
     EntryTime t = time lastc).
Proof.
  intros Hnd Hin. apply table_managed in Hin.
  pose proof (session_of_strict hist_df start_time end_time (Date t) Hnd)
    as Hs.
  assert (Hstrict : StopHit t = true -> EntryTime t < ExitTime t).
  { intros Hhit. destruct (managed_stop _ _ _ _ Hin Hhit) as [_ [c [Hc <-]]].
    now apply (after_strictly_later _ _ _ Hs). }
  split; [exact Hstrict|]. intros Heq.
  destruct (StopHit t) eqn:Hhit; [specialize (Hstrict eq_refl); lia|].
  split; [reflexivity|].
  pose proof Hin as [first [rest [Hdd _]]].
  destruct (exists_last (l := session_of hist_df start_time end_time (Date t)))
    as [pre [lastc E]]; [now rewrite Hdd|].
  exists pre, lastc. split; [exact E|].
  destruct (managed_close _ _ _ _ Hin Hhit pre lastc E) as [_ Hx].
  now rewrite <- Heq.
Qed.

Lemma X5_witness :
  NoDup (map time sample_hist) /\
  (In sample_first sample_table \/ In sample_first sample_table2) /\
  StopHit sample_first = true /\
  EntryTime sample_first < ExitTime sample_first.
Proof.
  assert (Hnd : NoDup (map time sample_hist)).
  { simpl. repeat (constructor; [simpl; intros H;
      repeat (destruct H as [H|H]; [discriminate H|]); exact H|]).
    constructor. }
  assert (Hin : In sample_first sample_table \/ In sample_first sample_table2)
    by (left; vm_compute; left; reflexivity).
  assert (Hhit : StopHit sample_first = true) by (vm_compute; reflexivity).
  split; [exact Hnd|]. split; [exact Hin|]. split; [exact Hhit|].
  exact (proj1 (X5_entry_bar_never_stops sample_hist sample_pct sample_sl_pct
                  default_start_time default_end_time sample_first Hnd Hin)
               Hhit).
Defined.

Open Scope Q_scope.



(** * Further properties of the metrics *)

Lemma stable_sort_nonempty {A : Type} (leb : A -> A -> bool) (l : list A) :
  l <> [] -> stable_sort leb l <> [].
Proof.
  intros Hl E. apply Hl.
  apply Permutation_nil. rewrite <- E. apply stable_sort_perm.
Qed.

(** The metrics of either backtest: the all-zero record with the empty
    table, or the computed record of a non-empty table. *)
Lemma backtest_metrics_cases (hist_df : list Candle) (pct : Q)
    (sl_pct : option Q) (start_time end_time : Z) (r : list Trade * Metrics) :
  r = backtest_intraday_open_breakout hist_df pct sl_pct start_time end_time \/
  r = backtest_intraday_open_breakout2 hist_df pct sl_pct start_time end_time ->
  r = ([], zero_metrics) \/
  (fst r <> [] /\ snd r = compute_metrics (fst r)).
Proof.
  intros [-> | ->].
  - unfold backtest_intraday_open_breakout.
    destruct (emitted _ _ _ _ _) as [|t l]; [now left | right].
    split; [|reflexivity]. cbn [fst]. now apply stable_sort_nonempty.
  - unfold backtest_intraday_open_breakout2.
    destruct (emitted2 _ _ _ _ _) as [|t l]; [now left | right].
    split; [|reflexivity]. cbn [fst]. now apply stable_sort_nonempty.
Qed.


Lemma filter_length_zero {A : Type} (p : A -> bool) (l : list A) :
  length (filter p l) = 0%nat <-> Forall (fun x => p x = false) l.
Proof.
  induction l as [|x l IH]; simpl.
  - split; [constructor | reflexivity].
  - destruct (p x) eqn:E; simpl.
    + split; [discriminate|]. intros H. inversion H; congruence.
    + rewrite IH. split; [now constructor | intros H; now inversion H].
Qed.

Lemma filter_length_full {A : Type} (p : A -> bool) (l : list A) :
  length (filter p l) = length l <-> Forall (fun x => p x = true) l.
Proof.
  induction l as [|x l IH]; simpl.
  - split; [constructor | reflexivity].
  - pose proof (filter_length_le p l) as Hle.
    destruct (p x) eqn:E; simpl.
    + split.
      * intros H. constructor; [exact E|]. apply IH. lia.
      * intros H. inversion H; subst. f_equal. now apply IH.
    + split; [lia|]. intros H. inversion H; congruence.
Qed.

Lemma win_test (p : Q) : negb (Qle_bool p 0) = true <-> 0 < p.
Proof.
  rewrite negb_true_iff. split.
  - intros H. apply Qnot_le_lt. intros Hc.
    apply Qle_bool_iff in Hc. congruence.
  - intros H. destruct (Qle_bool p 0) eqn:E; [|reflexivity].
    apply Qle_bool_iff in E. exfalso. exact (Qlt_not_le _ _ H E).
Qed.

Lemma count_wins_zero (trades_df : list Trade) :
  count_wins (map PnL trades_df) = 0%nat <->
  Forall (fun t => ~ 0 < PnL t) trades_df.
Proof.
  unfold count_wins. rewrite filter_length_zero, Forall_map.
  split; intros H; eapply Forall_impl; try exact H; cbv beta; intros t Ht.
  - intros Hc. apply win_test in Hc. congruence.
  - destruct (negb (Qle_bool (PnL t) 0)) eqn:E; [|reflexivity].
    apply win_test in E. contradiction.
Qed.

Lemma count_wins_full (trades_df : list Trade) :
  count_wins (map PnL trades_df) = length trades_df <->
  Forall (fun t => 0 < PnL t) trades_df.
Proof.
  unfold count_wins.
  rewrite <- (length_map PnL trades_df).
  rewrite filter_length_full, Forall_map.
  split; intros H; eapply Forall_impl; try exact H; cbv beta; intros t Ht;
    now apply win_test.
Qed.

Lemma win_rate_facts (w n : nat) :
  (w <= n)%nat -> (0 < n)%nat ->
  let rate := inject_Z (Z.of_nat w) / inject_Z (Z.of_nat n) * 100 in
  0 <= rate /\ rate <= 100 /\
  (rate == 0 <-> w = 0%nat) /\ (rate == 100 <-> w = n).
Proof.
  intros Hwn Hn rate.
  assert (HN : 0 < inject_Z (Z.of_nat n))
    by (change 0 with (inject_Z 0); rewrite <- Zlt_Qlt; lia).
  assert (HN' : ~ inject_Z (Z.of_nat n) == 0)
    by (intros E; rewrite E in HN; discriminate).
  assert (HW : 0 <= inject_Z (Z.of_nat w))
    by (change 0 with (inject_Z 0); rewrite <- Zle_Qle; lia).
  assert (HWN : inject_Z (Z.of_nat w) <= inject_Z (Z.of_nat n))
    by (rewrite <- Zle_Qle; lia).
  assert (Hback : inject_Z (Z.of_nat w)
                  == rate * (inject_Z (Z.of_nat n) / 100))
    by (unfold rate; field; exact HN').
  assert (Hfrac : inject_Z (Z.of_nat w) / inject_Z (Z.of_nat n) <= 1)
    by (apply Qle_shift_div_r; [exact HN | now rewrite Qmult_1_l]).
  assert (Hfrac0 : 0 <= inject_Z (Z.of_nat w) / inject_Z (Z.of_nat n))
    by (apply Qle_shift_div_l; [exact HN | now rewrite Qmult_0_l]).
  split; [|split; [|split]].
  - unfold rate. apply Qmult_le_0_compat; [exact Hfrac0 | discriminate].
  - unfold rate. change 100 with (1 * 100) at 2.
    apply Qmult_le_compat_r; [exact Hfrac | discriminate].
  - split.
    + intros E. rewrite E, Qmult_0_l in Hback.
      unfold Qeq in Hback. simpl in Hback. lia.
    + intros ->. unfold rate. simpl Z.of_nat. unfold Qdiv.
      change (inject_Z 0) with 0. ring.
  - split.
    + intros E. rewrite E in Hback.
      assert (E' : inject_Z (Z.of_nat w) == inject_Z (Z.of_nat n))
        by (rewrite Hback; field).
      unfold Qeq in E'. simpl in E'. lia.
    + intros ->. unfold rate. field. exact HN'.
Qed.

(** X7. [Win_Rate_pct] always lies between 0 and 100.  It is 0 exactly when
    no row of the returned table has a positive PnL, so rows with PnL 0 count
    as losses, and on a non-empty table it is 100 exactly when every row has
    a positive PnL. *)
Theorem X7_win_rate_bounds (hist_df : list Candle) (pct : Q)
    (sl_pct : option Q) (start_time end_time : Z) (r : list Trade * Metrics) :
  r = backtest_intraday_open_breakout hist_df pct sl_pct start_time end_time \/
  r = backtest_intraday_open_breakout2 hist_df pct sl_pct start_time end_time ->
  0 <= Win_Rate_pct (snd r) /\ Win_Rate_pct (snd r) <= 100 /\
  (Win_Rate_pct (snd r) == 0 <-> Forall (fun t => ~ 0 < PnL t) (fst r)) /\
  (fst r <> [] ->
   (Win_Rate_pct (snd r) == 100 <-> Forall (fun t => 0 < PnL t) (fst r))).
Proof.
  intros Hr. destruct (backtest_metrics_cases _ _ _ _ _ _ Hr) as [-> | [Hne E]].
  - simpl. split; [discriminate|]. split; [discriminate|].
    split; [split; [constructor | reflexivity] | now intros []].
  - rewrite E. unfold compute_metrics. cbn [Win_Rate_pct].
    assert (Hle : (count_wins (map PnL (fst r)) <= length (fst r))%nat).
    { unfold count_wins. rewrite <- (length_map PnL (fst r)).
      apply filter_length_le. }
    assert (Hpos : (0 < length (fst r))%nat)
      by (destruct (fst r); [easy | simpl; lia]).
    destruct (win_rate_facts _ _ Hle Hpos) as [H0 [H100 [Hz Hf]]].
    cbv zeta in H0, H100, Hz, Hf.
    split; [exact H0|]. split; [exact H100|].
    split; [now rewrite Hz, count_wins_zero|].
    intros _. now rewrite Hf, count_wins_full.
Qed.

Lemma X7_witness :
  rising_run
  = backtest_intraday_open_breakout rising_hist sample_pct sample_sl_pct
      default_start_time default_end_time /\
  fst rising_run <> [] /\
  Forall (fun t => 0 < PnL t) (fst rising_run) /\
  Win_Rate_pct (snd rising_run) == 100.
Proof.
  assert (Hne : fst rising_run <> []) by (vm_compute; discriminate).
  assert (Hall : Forall (fun t => 0 < PnL t) (fst rising_run))
    by (vm_compute; repeat constructor).
  split; [reflexivity|]. split; [exact Hne|]. split; [exact Hall|].
  destruct (X7_win_rate_bounds rising_hist sample_pct sample_sl_pct
              default_start_time default_end_time rising_run
              (or_introl eq_refl)) as [_ [_ [_ Hfull]]].
  exact (proj2 (Hfull Hne) Hall).
Defined.



(** ** The drawdown as a minimum over runs of consecutive trades *)

From Stdlib Require Import Lqa.















(** * Further properties of the session segmenter *)

Open Scope Z_scope.

Lemma trade_date_mono (a b : Candle) :
  time a <= time b -> trade_date a <= trade_date b.
Proof.
  intros H. unfold trade_date, date_of.
  apply Z.div_le_mono; [reflexivity | exact H].
Qed.

Lemma flat_map_all_nil {K B : Type} (g : K -> list B) (ks : list K) :
  (forall k, In k ks -> g k = []) -> flat_map g ks = [].
Proof.
  induction ks as [|k ks IH]; intros H; simpl; [reflexivity|].
  rewrite (H k (or_introl eq_refl)). apply IH. intros k' Hk'. apply H. now right.
Qed.

Lemma flat_map_ext_In {K B : Type} (g h : K -> list B) (ks : list K) :
  (forall k, In k ks -> g k = h k) -> flat_map g ks = flat_map h ks.
Proof.
  induction ks as [|k ks IH]; intros H; simpl; [reflexivity|].
  rewrite (H k (or_introl eq_refl)). f_equal. apply IH.
  intros k' Hk'. apply H. now right.
Qed.

Lemma filter_none {A : Type} (p : A -> bool) (l : list A) :
  (forall x, In x l -> p x = false) -> filter p l = [].
Proof.
  induction l as [|x l IH]; intros H; simpl; [reflexivity|].
  rewrite (H x (or_introl eq_refl)). apply IH. intros y Hy. apply H. now right.
Qed.

Lemma sorted_lt_split (ks1 ks2 : list Z) (k : Z) :
  StronglySorted Z.lt (ks1 ++ k :: ks2) ->
  (forall a, In a ks1 -> a < k) /\ (forall b, In b ks2 -> k < b).
Proof.
  induction ks1 as [|x ks1 IH]; simpl; intros H;
    inversion H as [|? ? Hs Hall]; subst; rewrite Forall_forall in Hall.
  - split; [intros a []| exact Hall].
  - destruct (IH Hs) as [H1 H2]. split; [|exact H2].
    intros a [<-|Ha]; [|now apply H1].
    apply Hall, in_or_app. right. now left.
Qed.

(** Grouping a time-sorted table by date and concatenating the groups in
    ascending order of date gives the table back. *)
Lemma concat_groups (l : list Candle) (ks : list Z) :
  StronglySorted (fun a b => time a <= time b) l ->
  StronglySorted Z.lt ks ->
  (forall c, In c l -> In (trade_date c) ks) ->
  flat_map (fun k => filter (fun c => trade_date c =? k) l) ks = l.
Proof.
  intros Hl Hks. induction Hl as [|x r Hr IH Hx]; intros Hcov.
  - apply flat_map_all_nil. reflexivity.
  - rewrite Forall_forall in Hx.
    destruct (in_split _ _ (Hcov x (or_introl eq_refl))) as [ks1 [ks2 E]].
    specialize (IH (fun c Hc => Hcov c (or_intror Hc))).
    rewrite E in Hks, IH |- *.
    destruct (sorted_lt_split _ _ _ Hks) as [Hlow Hhigh].
    assert (Hempty : forall l', (forall c, In c l' -> In c (x :: r)) ->
              flat_map (fun k => filter (fun c => trade_date c =? k) l') ks1
              = []).
    { intros l' Hsub. apply flat_map_all_nil. intros k Hk.
      apply filter_none. intros c Hc. apply Z.eqb_neq.
      specialize (Hlow k Hk).
      assert (trade_date x <= trade_date c).
      { destruct (Hsub c Hc) as [<-|Hc']; [lia|].
        apply trade_date_mono, Hx, Hc'. }
      lia. }
    rewrite flat_map_app in IH |- *.
    rewrite (Hempty (x :: r)) by (intros c Hc; exact Hc).
    rewrite (Hempty r) in IH by (intros c Hc; now right).
    cbn [flat_map app] in IH |- *.
    rewrite (flat_map_ext_In
               (fun k => filter (fun c => trade_date c =? k) (x :: r))
               (fun k => filter (fun c => trade_date c =? k) r) ks2).
    + cbn [filter]. rewrite Z.eqb_refl. cbn [app]. f_equal. exact IH.
    + intros k Hk. cbn [filter]. specialize (Hhigh k Hk).
      now rewrite (proj2 (Z.eqb_neq _ _)) by lia.
Qed.

Lemma filter_comm {A : Type} (p q : A -> bool) (l : list A) :
  filter p (filter q l) = filter q (filter p l).
Proof.
  induction l as [|x l IH]; simpl; [reflexivity|].
  destruct (p x) eqn:Ep, (q x) eqn:Eq; simpl; rewrite ?Ep, ?Eq, IH;
    reflexivity.
Qed.

(** X10. The segmenter loses and duplicates nothing: the sessions of a run,
    concatenated in order, are the time-sorted table restricted to the
    trading window.  The days come in strictly ascending order, a day is
    listed exactly when the table has a candle of that date, and every
    candle of a session has the date of its session. *)
Theorem X10_sessions_partition (hist_df : list Candle)
    (start_time end_time : Z) :
  flat_map snd (sessions hist_df start_time end_time)
  = between_time start_time end_time (sort_index hist_df) /\
  StronglySorted Z.lt (map fst (sessions hist_df start_time end_time)) /\
  (forall day,
     In day (map fst (sessions hist_df start_time end_time)) <->
     exists c, In c hist_df /\ trade_date c = day) /\
  (forall day dd c,
     In (day, dd) (sessions hist_df start_time end_time) ->
     In c dd -> trade_date c = day).
Proof.
  split; [|split; [|split]].
  - rewrite sessions_eq, flat_map_concat_map, map_map. cbn [snd].
    rewrite <- flat_map_concat_map.
    rewrite (flat_map_ext_In _
               (fun k => filter (fun c => trade_date c =? k)
                           (between_time start_time end_time
                              (sort_index hist_df)))).
    + apply concat_groups.
      * apply StronglySorted_filter, sort_index_sorted.
      * apply group_keys_sorted.
      * intros c Hc. apply filter_In in Hc. destruct Hc as [Hc _].
        apply group_keys_In. now exists c.
    + intros k _. unfold session_of, between_time. apply filter_comm.
  - rewrite sessions_keys. apply group_keys_sorted.
  - intros day. rewrite sessions_keys, group_keys_In.
    split; intros [c [Hc Hd]]; exists c; split; try exact Hd;
      now apply sort_index_In.
  - intros day dd c Hin Hc. rewrite sessions_eq in Hin.
    apply in_map_iff in Hin. destruct Hin as [k [[= <- <-] _]].
    apply session_of_In in Hc. apply Hc.
Qed.

(** * Further properties of the date-range filter *)

Lemma filter_twice {A : Type} (p q : A -> bool) (l : list A) :
  filter q (filter p l) = filter (fun x => p x && q x) l.
Proof.
  induction l as [|x l IH]; simpl; [reflexivity|].
  destruct (p x) eqn:Ep; simpl; [|exact IH].
  destruct (q x); now rewrite IH.
Qed.

Lemma filter_by_date_rows (df : Frame) (start_date end_date : Z) :
  map snd (filter_by_date df start_date end_date)
  = filter (fun c => (midnight start_date <=? time c)
                     && (time c <=? midnight end_date))
           (map snd df).
Proof.
  unfold filter_by_date. rewrite reset_index_rows.
  apply (filter_map_snd
           (fun c => (midnight start_date <=? time c)
                     && (time c <=? midnight end_date))).
Qed.

Lemma filter_by_date_reset (df : Frame) (start_date end_date : Z) :
  filter_by_date df start_date end_date
  = reset_index (map snd (filter_by_date df start_date end_date)).
Proof. unfold filter_by_date. now rewrite reset_index_rows. Qed.

(** X11. Filtering twice is filtering once by the intersection of the two
    ranges, index included; filtering again by the same range changes
    nothing; and a range whose end date is before its start date selects no
    row. *)
Theorem X11_filter_by_date_composes (df : Frame)
    (start_date end_date start_date' end_date' : Z) :
  filter_by_date (filter_by_date df start_date end_date)
                 start_date' end_date'
  = filter_by_date df (Z.max start_date start_date')
                   (Z.min end_date end_date') /\
  filter_by_date (filter_by_date df start_date end_date) start_date end_date
  = filter_by_date df start_date end_date /\
  (end_date < start_date -> filter_by_date df start_date end_date = []).
Proof.
  assert (Hcomp : forall s e s' e',
            filter_by_date (filter_by_date df s e) s' e'
            = filter_by_date df (Z.max s s') (Z.min e e')).
  { intros s e s' e'.
    rewrite (filter_by_date_reset (filter_by_date df s e) s' e').
    rewrite (filter_by_date_reset df (Z.max s s') (Z.min e e')).
    f_equal. rewrite !filter_by_date_rows, filter_twice.
    apply filter_ext. intros c. unfold midnight, day_seconds.
    destruct (s * 86400 <=? time c) eqn:E1,
             (time c <=? e * 86400) eqn:E2,
             (s' * 86400 <=? time c) eqn:E3,
             (time c <=? e' * 86400) eqn:E4,
             (Z.max s s' * 86400 <=? time c) eqn:E5,
             (time c <=? Z.min e e' * 86400) eqn:E6;
      try reflexivity; exfalso;
      rewrite ?Z.leb_le, ?Z.leb_gt in *; lia. }
  split; [apply Hcomp|]. split.
  - now rewrite Hcomp, Z.max_id, Z.min_id.
  - intros Hlt. rewrite filter_by_date_reset, filter_by_date_rows.
    rewrite filter_none; [reflexivity|].
    intros c _. unfold midnight, day_seconds.
    destruct (start_date * 86400 <=? time c) eqn:E1,
             (time c <=? end_date * 86400) eqn:E2; try reflexivity.
    exfalso. rewrite Z.leb_le in *. lia.
Qed.

Lemma X11_witness :
  1 < 2 /\ filter_by_date sample_frame 2 1 = [] /\
  filter_by_date (filter_by_date sample_frame 0 1) 1 5
  = filter_by_date sample_frame 1 1.
Proof.
  destruct (X11_filter_by_date_composes sample_frame 2 1 0 0)
    as [_ [_ Hempty]].
  destruct (X11_filter_by_date_composes sample_frame 0 1 1 5)
    as [Hcomp _].
  assert (Hlt : 1 < 2) by lia.
  split; [exact Hlt|]. split; [exact (Hempty Hlt) | exact Hcomp].
Defined.

(** * The driver: filtering by date, then backtesting *)

Section FilterSort.
Context {A : Type} (leb : A -> A -> bool) (p : A -> bool).
Hypothesis leb_total : forall a b, leb a b = false -> leb b a = true.
Hypothesis leb_trans :
  forall a b c, leb a b = true -> leb b c = true -> leb a c = true.



End FilterSort.

Open Scope Z_scope.






(** * The order of the input rows *)

Lemma strict_sorted_perm_eq (l1 l2 : list Candle) :
  StronglySorted (fun a b => time a < time b) l1 ->
  StronglySorted (fun a b => time a < time b) l2 ->
  Permutation l1 l2 -> l1 = l2.
Proof.
  intros H1. revert l2. induction H1 as [|x r1 Hr1 IH Hx]; intros l2 H2 Hp.
  - apply Permutation_nil in Hp. now subst.
  - destruct H2 as [|y r2 Hr2 Hy].
    + apply Permutation_sym, Permutation_nil in Hp. discriminate.
    + rewrite Forall_forall in Hx, Hy.
      assert (Hxy : x = y).
      { assert (Hx2 : In x (y :: r2))
          by (eapply Permutation_in; [exact Hp | now left]).
        assert (Hy1 : In y (x :: r1))
          by (eapply Permutation_in;
              [apply Permutation_sym; exact Hp | now left]).
        destruct Hx2 as [E|Hx2]; [now symmetry|].
        destruct Hy1 as [E|Hy1]; [exact E|].
        specialize (Hx y Hy1). specialize (Hy x Hx2). lia. }
      subst y. f_equal. apply IH; [exact Hr2|].
      now apply Permutation_cons_inv with (a := x).
Qed.

Lemma sort_index_strict (df : list Candle) :
  NoDup (map time df) ->
  StronglySorted (fun a b => time a < time b) (sort_index df).
Proof.
  intros Hnd. apply sorted_NoDup_strict; [apply sort_index_sorted|].
  eapply Permutation_NoDup; [|exact Hnd].
  apply Permutation_map, Permutation_sym. unfold sort_index.
  apply stable_sort_perm.
Qed.

(** X13. When the timestamps of a table are pairwise distinct, the order of
    its rows does not matter: both backtests return the same trade table and
    the same metrics on every rearrangement of the rows. *)
Theorem X13_row_order_irrelevant (hist_df hist_df' : list Candle) (pct : Q)
    (sl_pct : option Q) (start_time end_time : Z) :
  NoDup (map time hist_df) ->
  Permutation hist_df hist_df' ->
  backtest_intraday_open_breakout hist_df' pct sl_pct start_time end_time
  = backtest_intraday_open_breakout hist_df pct sl_pct start_time end_time /\
  backtest_intraday_open_breakout2 hist_df' pct sl_pct start_time end_time
  = backtest_intraday_open_breakout2 hist_df pct sl_pct start_time end_time.
Proof.
  intros Hnd Hp.
  assert (Hnd' : NoDup (map time hist_df'))
    by (eapply Permutation_NoDup; [apply Permutation_map, Hp | exact Hnd]).
  assert (Hsort : sort_index hist_df' = sort_index hist_df).
  { apply strict_sorted_perm_eq; try now apply sort_index_strict.
    unfold sort_index.
    eapply perm_trans; [apply stable_sort_perm|].
    eapply perm_trans; [apply Permutation_sym, Hp|].
    apply Permutation_sym, stable_sort_perm. }
  unfold backtest_intraday_open_breakout, backtest_intraday_open_breakout2,
    emitted, emitted2, sessions.
  now rewrite Hsort.
Qed.

Lemma X13_witness :
  NoDup (map time sample_hist) /\
  Permutation sample_hist (rev sample_hist) /\
  backtest_intraday_open_breakout2 (rev sample_hist) sample_pct sample_sl_pct
    default_start_time default_end_time
  = backtest_intraday_open_breakout2 sample_hist sample_pct sample_sl_pct
      default_start_time default_end_time.
Proof.
  assert (Hnd : NoDup (map time sample_hist)).
  { simpl. repeat (constructor; [simpl; intros H;
      repeat (destruct H as [H|H]; [discriminate H|]); exact H|]).
    constructor. }
  assert (Hp : Permutation sample_hist (rev sample_hist))
    by apply Permutation_rev.
  split; [exact Hnd|]. split; [exact Hp|].
  exact (proj2 (X13_row_order_irrelevant sample_hist (rev sample_hist)
                  sample_pct sample_sl_pct default_start_time
                  default_end_time Hnd Hp)).
Defined.

(** * Counting trades *)

Lemma flat_map_length_le {K B C : Type} (g : K -> list B) (h : K -> list C)
    (n : nat) (ks : list K) :
  (forall k, (length (g k) <= n * length (h k))%nat) ->
  (length (flat_map g ks) <= n * length (flat_map h ks))%nat.
Proof.
  intros H. induction ks as [|k ks IH]; simpl; [lia|].
  rewrite !length_app. specialize (H k). nia.
Qed.

Lemma flat_map_singleton {K : Type} (ks : list K) :
  flat_map (fun k => [k]) ks = ks.
Proof. induction ks as [|k ks IH]; simpl; [reflexivity | now f_equal]. Qed.

Lemma day_trades_firstn (pct sl_pct : Q) (day : Z) (dd : list Candle) :
  day_trades pct sl_pct day dd = firstn 1 (day_trades2 pct sl_pct day dd).
Proof.
  destruct dd as [|first rest]; [reflexivity|].
  rewrite day_trades_unfold, day_trades2_unfold.
  destruct (find_trigger _ _ _ _) as [[[[entry ts] ty] sl]|]; [|reflexivity].
  cbv zeta. now destruct (StopHit _).
Qed.

Lemma day_trades2_length (pct sl_pct : Q) (day : Z) (dd : list Candle) :
  (length (day_trades2 pct sl_pct day dd) <= 2)%nat.
Proof.
  destruct (day_trades2_shape pct sl_pct day dd)
    as [E|[[t1 [E _]]|[t1 [t2 [E _]]]]]; rewrite E; simpl; lia.
Qed.

(** X14. The single-trade table has at most one row per day of the input,
    and the two-trade table has at least as many rows as the single-trade
    table and at most twice as many. *)
Theorem X14_table_sizes (hist_df : list Candle) (pct : Q)
    (sl_pct : option Q) (start_time end_time : Z) :
  (length (fst (backtest_intraday_open_breakout hist_df pct sl_pct
                  start_time end_time))
   <= length (sessions hist_df start_time end_time))%nat /\
  (length (fst (backtest_intraday_open_breakout hist_df pct sl_pct
                  start_time end_time))
   <= length (fst (backtest_intraday_open_breakout2 hist_df pct sl_pct
                     start_time end_time)))%nat /\
  (length (fst (backtest_intraday_open_breakout2 hist_df pct sl_pct
                  start_time end_time))
   <= 2 * length (fst (backtest_intraday_open_breakout hist_df pct sl_pct
                         start_time end_time)))%nat.
Proof.
  rewrite backtest_table, backtest2_table. unfold emitted, emitted2.
  split; [|split].
  - pose proof (flat_map_length_le
                  (fun s => day_trades pct (normalize_sl pct sl_pct)
                              (fst s) (snd s))
                  (fun s => [s]) 1 (sessions hist_df start_time end_time))
      as H.
    rewrite Nat.mul_1_l in H.
    rewrite flat_map_singleton in H.
    apply H. intros s. cbn [length Nat.mul Nat.add].
    pose proof (day_trades_length pct (normalize_sl pct sl_pct)
                  (fst s) (snd s)). lia.
  - pose proof (flat_map_length_le
                  (fun s => day_trades pct (normalize_sl pct sl_pct)
                              (fst s) (snd s))
                  (fun s => day_trades2 pct (normalize_sl pct sl_pct)
                              (fst s) (snd s))
                  1 (sessions hist_df start_time end_time)) as H.
    rewrite Nat.mul_1_l in H. apply H. intros s.
    rewrite day_trades_firstn, length_firstn. lia.
  - apply flat_map_length_le. intros s.
    rewrite day_trades_firstn, length_firstn.
    pose proof (day_trades2_length pct (normalize_sl pct sl_pct)
                  (fst s) (snd s)). lia.
Qed.

(** * Days are simulated independently *)

(** X15. The records of a day depend on that day's session only: two input
    tables with the same session for a day get the same records for that
    day, in both backtests, whatever their other days hold. *)
Theorem X15_days_are_independent (hist_df hist_df' : list Candle) (pct : Q)
    (sl_pct : option Q) (start_time end_time day : Z) :
  session_of hist_df start_time end_time day
  = session_of hist_df' start_time end_time day ->
  trades_on day (fst (backtest_intraday_open_breakout hist_df pct sl_pct
                        start_time end_time))
  = trades_on day (fst (backtest_intraday_open_breakout hist_df' pct sl_pct
                          start_time end_time)) /\
  trades_on day (fst (backtest_intraday_open_breakout2 hist_df pct sl_pct
                        start_time end_time))
  = trades_on day (fst (backtest_intraday_open_breakout2 hist_df' pct sl_pct
                          start_time end_time)).
Proof.
  intros E.
  destruct (tables_on_day hist_df pct sl_pct start_time end_time day)
    as [-> ->].
  destruct (tables_on_day hist_df' pct sl_pct start_time end_time day)
    as [-> ->].
  now rewrite E.
Qed.

Lemma X15_witness :
  session_of sample_hist default_start_time default_end_time 0
  = session_of (firstn 4 sample_hist) default_start_time default_end_time 0 /\
  trades_on 0 sample_table2
  = trades_on 0 (sample_run2 (firstn 4 sample_hist)).
Proof.
  assert (E : session_of sample_hist default_start_time default_end_time 0
              = session_of (firstn 4 sample_hist)
                  default_start_time default_end_time 0)
    by (vm_compute; reflexivity).
  split; [exact E|].
  exact (proj2 (X15_days_are_independent sample_hist (firstn 4 sample_hist)
                  sample_pct sample_sl_pct default_start_time
                  default_end_time 0 E)).
Defined.
